(** * HyperbolicSTransform: a shallow embedding of [hstransform.py]

    The development follows the Python module top to bottom:
    the exception-carrying result type, the values an input signal can
    hold, the NumPy conversions and predicates used by
    [_input_validation], the broadcasting arithmetic used by
    [_compute_hyperbolic_gaussian], and the row-by-row assembly done by
    [fit_transform].

    The module is embedded twice.

    The first embedding settles what the code does with its control
    flow: which inputs validation lets through, which exception ends a
    call, how many rows are allocated and which row every loop step
    writes.  There floating-point numbers are idealised as real numbers
    ([R]); the one special value the code tests for, NaN, is kept as a
    separate constructor.  Complex numbers are pairs of reals.  The
    forward and inverse discrete Fourier transforms are an interface
    ([FourierLib]), with the textbook DFT as its instance.

    The second embedding, module [F64], settles the values: every
    number is the IEEE-754 binary64 value NumPy computes with, integer
    arrays wrap modulo 2^64, and sums are taken in NumPy's order.  The
    statements about the window weight and about the entries of row 0
    are made there. *)

From Stdlib Require Import ZArith String List Bool Reals Lia Lra.
From Stdlib Require Floats.
Import ListNotations.

Local Open Scope Z_scope.

(* ================================================================== *)
(** ** Exceptions and the result monad *)

Inductive exn : Type :=
| TypeError (msg : string)
| ValueError (msg : string)
| IndexError (msg : string)
| ZeroDivisionError (msg : string)
| OverflowError (msg : string).

Inductive result (A : Type) : Type :=
| Ok (a : A)
| Raise (e : exn).

Arguments Ok {A} a.
Arguments Raise {A} e.

Definition bind {A B : Type} (m : result A) (k : A -> result B) : result B :=
  match m with
  | Ok a => k a
  | Raise e => Raise e
  end.

Notation "x <- m ;; k" := (bind m (fun x => k))
  (at level 61, m at next level, right associativity).

Definition is_value_error {A : Type} (r : result A) : bool :=
  match r with
  | Raise (ValueError _) => true
  | _ => false
  end.

(** Python's [for x in xs: body] over a state that the body may abort. *)
Fixpoint for_each {A S : Type} (body : S -> A -> result S) (xs : list A) (s : S)
  : result S :=
  match xs with
  | [] => Ok s
  | x :: xs' => s' <- body s x ;; for_each body xs' s'
  end.

(* ================================================================== *)
(** ** Python values that an input signal can hold *)

Inductive pyfloat : Type :=
| Finite (r : R)
| NaN.

Inductive pyelem : Type :=
| EInt (z : Z)
| EFloat (x : pyfloat)
| EBool (b : bool)
| EStr (s : string).

(** A one-dimensional NumPy array, tagged by its dtype.  A string array
    keeps the elements whose [str()] it stores; an object array keeps
    the Python objects themselves. *)
Inductive ndarray : Type :=
| ArrInt (l : list Z)
| ArrUInt (l : list Z)
| ArrFloat (l : list pyfloat)
| ArrBool (l : list bool)
| ArrStr (l : list pyelem)
| ArrObject (l : list pyelem).

(** What a caller can pass as [input_signal]. *)
Inductive pyobj : Type :=
| PyArray (a : ndarray)
| PySeries (a : ndarray)
| PyList (l : list pyelem)
| PyOther (tyname : string).

Definition is_str (e : pyelem) : bool :=
  match e with EStr _ => true | _ => false end.

Definition is_float (e : pyelem) : bool :=
  match e with EFloat _ => true | _ => false end.

(** The dtype NumPy discovers for one Python int: int64 when it fits,
    else uint64 when it fits, else object. *)
Definition is_int64 (e : pyelem) : bool :=
  match e with
  | EInt z => (- 2 ^ 63 <=? z) && (z <? 2 ^ 63)
  | _ => false
  end.

Definition is_uint64 (e : pyelem) : bool :=
  match e with
  | EInt z => (2 ^ 63 <=? z) && (z <? 2 ^ 64)
  | _ => false
  end.

Definition is_big_int (e : pyelem) : bool :=
  match e with
  | EInt z => (z <? - 2 ^ 63) || (2 ^ 64 <=? z)
  | _ => false
  end.

Definition in_int64 (e : pyelem) : bool :=
  match e with
  | EInt z => (- 2 ^ 63 <=? z) && (z <? 2 ^ 63)
  | _ => true
  end.

Definition bool_to_Z (b : bool) : Z := if b then 1 else 0.

(** Element casts done by [np.array] once the common dtype is chosen.
    The string branches are never taken: a list with a string gets the
    string dtype. *)
Definition elem_to_float (e : pyelem) : pyfloat :=
  match e with
  | EInt z => Finite (IZR z)
  | EFloat x => x
  | EBool b => Finite (IZR (bool_to_Z b))
  | EStr _ => NaN
  end.

Definition elem_to_int (e : pyelem) : Z :=
  match e with
  | EInt z => z
  | EBool b => bool_to_Z b
  | _ => 0
  end.

Definition elem_to_bool (e : pyelem) : bool :=
  match e with
  | EBool b => b
  | _ => false
  end.

(** [np.array(l)] on a Python list.  Every element has a dtype of its
    own (bool, int64, uint64, float64, str, or object for an int that
    fits neither integer dtype) and the array takes their promotion:
    object wins over everything, then str, then float64; int64 and
    uint64 together promote to float64; bool is below the integers.  The
    empty list gives float64. *)
Definition np_array_of_list (l : list pyelem) : ndarray :=
  match l with
  | [] => ArrFloat []
  | _ =>
      if existsb is_big_int l then ArrObject l
      else if existsb is_str l then ArrStr l
      else if existsb is_float l || (existsb is_int64 l && existsb is_uint64 l)
           then ArrFloat (map elem_to_float l)
      else if existsb is_uint64 l then ArrUInt (map elem_to_int l)
      else if existsb is_int64 l then ArrInt (map elem_to_int l)
      else ArrBool (map elem_to_bool l)
  end.

(** [np.array(obj)] for the accepted containers.  Another object would
    become a zero-dimensional object array; validation rejects it
    before the conversion is reached. *)
Definition np_array (o : pyobj) : ndarray :=
  match o with
  | PyArray a => a
  | PySeries a => a
  | PyList l => np_array_of_list l
  | PyOther _ => ArrObject []
  end.

Definition np_len (a : ndarray) : nat :=
  match a with
  | ArrInt l => length l
  | ArrUInt l => length l
  | ArrFloat l => length l
  | ArrBool l => length l
  | ArrStr l => length l
  | ArrObject l => length l
  end.

Definition float_is_nan (x : pyfloat) : bool :=
  match x with NaN => true | Finite _ => false end.

(** [np.isnan(a).any()]: the ufunc has no loop for string and object
    arrays and raises [TypeError] there. *)
Definition np_isnan_any (a : ndarray) : result bool :=
  match a with
  | ArrInt _ | ArrUInt _ => Ok false
  | ArrFloat l => Ok (existsb float_is_nan l)
  | ArrBool _ => Ok false
  | ArrStr _ | ArrObject _ =>
      Raise (TypeError "ufunc 'isnan' not supported for the input types")
  end.

(** [np.issubdtype(a.dtype, np.number)] *)
Definition np_issubdtype_number (a : ndarray) : bool :=
  match a with
  | ArrInt _ | ArrUInt _ | ArrFloat _ => true
  | ArrBool _ | ArrStr _ | ArrObject _ => false
  end.

Definition isinstance_valid_types (o : pyobj) : bool :=
  match o with
  | PyArray _ | PySeries _ | PyList _ => true
  | PyOther _ => false
  end.

Definition type_name (o : pyobj) : string :=
  match o with
  | PyArray _ => "numpy.ndarray"
  | PySeries _ => "pandas.core.series.Series"
  | PyList _ => "list"
  | PyOther n => n
  end.

Definition msg_null : string := "input_signal contains null values.".
Definition msg_non_numeric : string :=
  "input_signal should only contain numerical values.".
Definition msg_bad_type (o : pyobj) : string :=
  ("input_signal must be one of the following types: "
   ++ "(<class 'numpy.ndarray'>, <class 'pandas.core.series.Series'>, <class 'list'>)"
   ++ ", not <class '" ++ type_name o ++ "'>.")%string.

(* ================================================================== *)
(** ** [HSTransform._input_validation] *)

Definition _input_validation (input_signal : pyobj) : result unit :=
  if negb (isinstance_valid_types input_signal) then
    Raise (TypeError (msg_bad_type input_signal))
  else
    let input_array := np_array input_signal in
    has_nan <- np_isnan_any input_array ;;
    if (has_nan : bool) then Raise (ValueError msg_null)
    else if negb (np_issubdtype_number input_array) then
           Raise (ValueError msg_non_numeric)
    else Ok tt.

(** Sequencing a fallible function over a list, left to right. *)
Fixpoint traverse {A B : Type} (f : A -> result B) (l : list A)
  : result (list B) :=
  match l with
  | [] => Ok []
  | x :: l' => y <- f x ;; ys <- traverse f l' ;; Ok (y :: ys)
  end.

(* ================================================================== *)
(** ** Real and complex arrays *)

Definition C : Type := (R * R)%type.

Definition C0 : C := (0%R, 0%R).
Definition RtoC (x : R) : C := (x, 0%R).
Definition Cadd (a b : C) : C := (fst a + fst b, snd a + snd b)%R.
Definition Cmul (a b : C) : C :=
  (fst a * fst b - snd a * snd b, fst a * snd b + snd a * fst b)%R.
(** A complex number times a real scalar, as in [H[...] * W_hy]. *)
Definition Cscale (w : R) (a : C) : C := (fst a * w, snd a * w)%R.
Definition Csum (l : list C) : C := fold_right Cadd C0 l.

Definition Rsum (l : list R) : R := fold_right Rplus 0%R l.

Fixpoint zip_with {A B D : Type} (f : A -> B -> D) (a : list A) (b : list B)
  : list D :=
  match a, b with
  | x :: a', y :: b' => f x y :: zip_with f a' b'
  | _, _ => []
  end.

(** [np.arange(a, b)] on integers. *)
Definition np_arange (a b : Z) : list Z :=
  map (fun i => a + Z.of_nat i) (seq 0 (Z.to_nat (b - a))).

(** Two-dimensional real arrays are lists of rows. *)
Definition array2 : Type := list (list R).

(** [np.tile(X, (1, 2))] of a one-dimensional [X]: one row, [X] twice. *)
Definition np_tile_1_2 (X : list R) : array2 := [X ++ X].

(** [m.T] *)
Definition np_transpose (m : array2) : array2 :=
  map (fun j => map (fun row => nth j row 0%R) m)
      (seq 0 (length (hd [] m))).

(** One row of a broadcast binary operation between a one-dimensional
    operand [v] and a row of a two-dimensional operand: equal lengths go
    element by element, a length-one side is stretched, anything else is
    NumPy's broadcast error. *)
Definition broadcast_row (op : R -> R -> R) (v row : list R)
  : result (list R) :=
  if (length v =? length row)%nat then Ok (zip_with op v row)
  else if (length row =? 1)%nat then Ok (map (fun a => op a (hd 0%R row)) v)
  else if (length v =? 1)%nat then Ok (map (op (hd 0%R v)) row)
  else Raise (ValueError "operands could not be broadcast together").

(** [v op m] with [v] of shape (L,) and [m] of shape (r, c): [v] is
    aligned against every row of [m]. *)
Definition broadcast_1d_2d (op : R -> R -> R) (v : list R) (m : array2)
  : result array2 :=
  traverse (broadcast_row op v) m.

(** [np.sum(G)] over every element. *)
Definition np_sum (G : array2) : R := Rsum (concat G).

(* ================================================================== *)
(** ** The transform configuration *)

Record HSTransform : Type := {
  forwardtaper : R;
  backwardtaper : R;
  curvature : R
}.

Definition default_transform : HSTransform :=
  {| forwardtaper := 0.2%R; backwardtaper := 0.1%R; curvature := 312.5%R |}.

(* ================================================================== *)
(** ** [HSTransform._compute_hyperbolic_gaussian] *)

(** The time-warp term of line 78, for one time value. *)
Definition time_warp (self : HSTransform) (t : R) : R :=
  let lambdaf := forwardtaper self in
  let lambdab := backwardtaper self in
  let lambda_val := curvature self in
  ((lambdaf + lambdab) * t / (2 * lambdaf * lambdab)
   + (lambdaf - lambdab) * sqrt (t ^ 2 + lambda_val) / (2 * lambdaf * lambdab))%R.

Definition _compute_hyperbolic_gaussian
  (self : HSTransform) (L n : Z) (time : list R) : result R :=
  let vectorf := np_arange 0 L in
  let vectorf1 := map (fun f => f ^ 2) vectorf in
  let lambdaf := forwardtaper self in
  let lambdab := backwardtaper self in
  let X := map (time_warp self) time in
  let X := np_transpose (np_tile_1_2 X) in
  prod <- broadcast_1d_2d Rmult
            (map (fun f1 => IZR (- f1)) vectorf1)
            (map (map (fun x => (x ^ 2)%R)) X) ;;
  let vectorf2 := map (map (fun p => (p / IZR (2 * n ^ 2))%R)) prod in
  num <- broadcast_1d_2d Rmult
           (map (fun f => IZR (2 * Z.abs f)) vectorf)
           (map (map exp) vectorf2) ;;
  let G :=
    map (map (fun g => (g / ((lambdaf + lambdab) * sqrt (2 * PI)))%R)) num in
  Ok (np_sum G).

(** *** The window weight as the specification writes it *)

(** One entry of the envelope [G], for frequency bin [f] and warped
    time [x]:  2·|f|·exp(−f²·x²/(2n²)) / ((λf+λb)·sqrt(2π)). *)
Definition envelope (self : HSTransform) (n : Z) (x : R) (f : Z) : R :=
  (2 * IZR (Z.abs f) * exp (- (IZR f) ^ 2 * x ^ 2 / (2 * (IZR n) ^ 2))
   / ((forwardtaper self + backwardtaper self) * sqrt (2 * PI)))%R.

(** The sum of the envelope over a list of warped times and the bins
    [0 .. L-1]. *)
Definition envelope_sum (self : HSTransform) (L n : Z) (xs : list R) : R :=
  Rsum (map (fun x => Rsum (map (envelope self n x) (np_arange 0 L))) xs).

(** The weight of the specification: the warp vector in two stacked
    copies, then the sum of all of [G]. *)
Definition window_weight_spec
  (self : HSTransform) (L n : Z) (time : list R) : R :=
  let X := map (time_warp self) time in
  envelope_sum self L n (X ++ X).

(* ================================================================== *)
(** ** The Fourier transform primitives *)

(** [scipy.fft.fft] and [scipy.fft.ifft] on a non-empty one-dimensional
    array: two length-preserving maps on complex vectors. *)
Class FourierLib : Type := {
  fft : list C -> list C;
  ifft : list C -> list C;
  fft_length : forall x, length (fft x) = length x;
  ifft_length : forall x, length (ifft x) = length x
}.

Definition msg_no_points : string :=
  "invalid number of data points (0) specified".

(** Both primitives reject an empty array. *)
Definition scipy_fft `{FourierLib} (x : list C) : result (list C) :=
  match x with
  | [] => Raise (ValueError msg_no_points)
  | _ => Ok (fft x)
  end.

Definition scipy_ifft `{FourierLib} (x : list C) : result (list C) :=
  match x with
  | [] => Raise (ValueError msg_no_points)
  | _ => Ok (ifft x)
  end.

(** The textbook transform: [dft sgn x] has entries
    sum_n x_n · e^(sgn · 2πi·k·n/N). *)
Definition twiddle (sgn : R) (N k n : nat) : C :=
  let theta := (sgn * 2 * PI * INR k * INR n / INR N)%R in
  (cos theta, sin theta).

Definition dft (sgn : R) (x : list C) : list C :=
  let N := length x in
  map (fun k =>
         Csum (zip_with (fun n xn => Cmul xn (twiddle sgn N k n)) (seq 0 N) x))
      (seq 0 N).

Definition dft_forward (x : list C) : list C := dft (-1) x.

Definition dft_inverse (x : list C) : list C :=
  map (Cscale (/ INR (length x))) (dft 1 x).

(* ================================================================== *)
(** ** Python integer and sequence operations *)

(** [a // b] *)
Definition py_floordiv (a b : Z) : result Z :=
  if b =? 0 then Raise (ZeroDivisionError "integer division or modulo by zero")
  else Ok (a / b).

(** The number of elements of [range(start, stop, step)], [step <> 0]. *)
Definition range_len (start stop step : Z) : Z :=
  if 0 <? step then
    if start <? stop then (stop - start - 1) / step + 1 else 0
  else
    if stop <? start then (start - stop - 1) / (- step) + 1 else 0.

(** [range(start, stop, step)] *)
Definition py_range (start stop step : Z) : result (list Z) :=
  if step =? 0 then Raise (ValueError "range() arg 3 must not be zero")
  else Ok (map (fun i => start + Z.of_nat i * step)
               (seq 0 (Z.to_nat (range_len start stop step)))).

(** A slice bound brought into [0 .. len], negative bounds counting
    from the end. *)
Definition clamp_bound (len i : Z) : Z :=
  if i <? 0 then Z.max 0 (i + len) else Z.min i len.

(** [l[a:b]] *)
Definition py_slice {A : Type} (l : list A) (a b : Z) : list A :=
  let len := Z.of_nat (length l) in
  let a' := clamp_bound len a in
  let b' := clamp_bound len b in
  firstn (Z.to_nat (b' - a')) (skipn (Z.to_nat a') l).

Fixpoint replace_nth {A : Type} (n : nat) (x : A) (l : list A) : list A :=
  match l, n with
  | [], _ => []
  | _ :: l', O => x :: l'
  | y :: l', S n' => y :: replace_nth n' x l'
  end.

(* ================================================================== *)
(** ** The output matrix *)

(** A complex matrix of shape ([length rows], [ncols]). *)
Record cmatrix : Type := {
  ncols : nat;
  rows : list (list C)
}.

Definition nrows (S : cmatrix) : nat := length (rows S).

(** [np.zeros((nr, nc), dtype='complex')] *)
Definition np_zeros (nr : Z) (nc : nat) : result cmatrix :=
  if nr <? 0 then Raise (ValueError "negative dimensions are not allowed")
  else Ok {| ncols := nc; rows := repeat (repeat C0 nc) (Z.to_nat nr) |}.

(** [S[i, :] = v]: the row index is resolved first (negative indices
    count from the end), then [v] is broadcast against the row. *)
Definition set_row (S : cmatrix) (i : Z) (v : list C) : result cmatrix :=
  let nr := Z.of_nat (nrows S) in
  if (i <? - nr) || (nr <=? i) then
    Raise (IndexError "index is out of bounds for axis 0")
  else
    let i' := Z.to_nat (if i <? 0 then i + nr else i) in
    if (length v =? ncols S)%nat then
      Ok {| ncols := ncols S; rows := replace_nth i' v (rows S) |}
    else if (length v =? 1)%nat then
      Ok {| ncols := ncols S;
            rows := replace_nth i' (repeat (hd C0 v) (ncols S)) (rows S) |}
    else Raise (ValueError "could not broadcast input array").

(* ================================================================== *)
(** ** [HSTransform.fit_transform] *)

Definition finite_value (x : pyfloat) : result R :=
  match x with
  | Finite r => Ok r
  | NaN => Raise (ValueError "NaN has no real value")
  end.

(** The real numbers held by a numeric array.  The failing branches lie
    outside the real-number idealisation; [_input_validation] has
    excluded them before this conversion runs. *)
Definition numeric_values (a : ndarray) : result (list R) :=
  match a with
  | ArrInt l | ArrUInt l => Ok (map IZR l)
  | ArrFloat l => traverse finite_value l
  | _ => Raise (TypeError "array is not numeric")
  end.

(** [np.mean(x)] *)
Definition np_mean (x : list R) : R := (Rsum x / INR (length x))%R.

(** [1 & np.arange(1, N + 1)] *)
Definition dc_mask (N : Z) : list Z := map (Z.land 1) (np_arange 1 (N + 1)).

(** The right-hand side of line 127. *)
Definition dc_row (signal : list R) : list R :=
  map (fun b => (np_mean signal * IZR b)%R)
      (dc_mask (Z.of_nat (length signal))).

Section Transform.

Context `{FL : FourierLib}.

(** The body of the loop of lines 132-134. *)
Definition loop_body (self : HSTransform) (N minf fsamplingrate : Z)
  (time_values : list R) (H : list C) (S : cmatrix) (k : Z) : result cmatrix :=
  W_hy <- _compute_hyperbolic_gaussian self N (minf + k) time_values ;;
  row <- scipy_ifft
           (map (Cscale W_hy) (py_slice H (minf + k + 1) (minf + k + N + 1))) ;;
  i <- py_floordiv k fsamplingrate ;;
  set_row S i row.

(** [time_values] is taken as the one-dimensional numeric array it is
    converted to.  [k_values] of line 129 is never read and is left
    out. *)
Definition fit_transform (self : HSTransform) (time_values : list R)
  (input_signal : pyobj) (minf fsamplingrate : Z) : result cmatrix :=
  _ <- _input_validation input_signal ;;
  let input_signal := np_array input_signal in
  signal <- numeric_values input_signal ;;
  let N := Z.of_nat (np_len input_signal) in
  let maxf := Z.min 900 (N / 2) in
  H <- scipy_fft (map RtoC signal) ;;
  let H := H ++ H in
  nr <- py_floordiv (maxf - minf + 1) fsamplingrate ;;
  S <- np_zeros nr (np_len input_signal) ;;
  S <- set_row S 0 (map RtoC (dc_row signal)) ;;
  ks <- py_range fsamplingrate (maxf - minf + 1) fsamplingrate ;;
  for_each (loop_body self N minf fsamplingrate time_values H) ks S.

(** *** The rows, as the specification describes them *)

(** The length-[N] window of the doubled spectrum [concat(H, H)] that
    starts at index [start]. *)
Definition spectrum_window (H : list C) (N : nat) (start : Z) : list C :=
  firstn N (skipn (Z.to_nat start) (H ++ H)).

(** The row of step [k]: the inverse transform of the window starting at
    [minf + k + 1], scaled by the window weight [W]. *)
Definition weighted_inverse (signal : list R) (minf k : Z) (W : R) : list C :=
  ifft (map (Cscale W)
            (spectrum_window (fft (map RtoC signal)) (length signal)
                             (minf + k + 1))).

Definition voice_row (self : HSTransform) (time_values : list R)
  (signal : list R) (minf k : Z) : list C :=
  weighted_inverse signal minf k
    (window_weight_spec self (Z.of_nat (length signal)) (minf + k) time_values).

(** The whole matrix for a stride [fs] that yields [count] loop steps. *)
Definition transform_rows (self : HSTransform) (time_values : list R)
  (signal : list R) (minf fs : Z) (count : nat) : list (list C) :=
  map RtoC (dc_row signal)
  :: map (fun i => voice_row self time_values signal minf
                              ((Z.of_nat i + 1) * fs))
         (seq 0 count).

End Transform.

(** [⌈a / b⌉] for a positive [b]. *)
Definition ceil_div (a b : Z) : Z := - ((- a) / b).

(** The band width [maxf - minf + 1] for a signal of [n] samples. *)
Definition band_width (n : nat) (minf : Z) : Z :=
  Z.min 900 (Z.of_nat n / 2) - minf + 1.

(** The shape promised for a call: a matrix is returned, with the floor
    of band width over stride as its row count and one column per
    sample in every row. *)
Definition returns_floor_shape `{FL : FourierLib} (self : HSTransform)
  (time_values : list R) (input_signal : pyobj) (minf fsamplingrate : Z)
  : Prop :=
  let n := np_len (np_array input_signal) in
  exists S,
    fit_transform self time_values input_signal minf fsamplingrate = Ok S
    /\ Z.of_nat (nrows S) = band_width n minf / fsamplingrate
    /\ ncols S = n
    /\ Forall (fun row => length row = n) (rows S).

(** Two outcomes of a call agree when both raise the same exception or
    both return matrices of the same shape. *)
Definition same_outcome (r1 r2 : result cmatrix) : Prop :=
  match r1, r2 with
  | Ok S1, Ok S2 => nrows S1 = nrows S2 /\ ncols S1 = ncols S2
  | Raise e1, Raise e2 => e1 = e2
  | _, _ => False
  end.

(** *** The scenario of the specification *)

Definition signal8 : pyobj :=
  PyList [EInt 1; EInt 2; EInt 3; EInt 4; EInt 5; EInt 6; EInt 7; EInt 8].

Definition values8 : list R := map IZR [1; 2; 3; 4; 5; 6; 7; 8].

Definition time8 : list R := map IZR [0; 1; 2; 3; 4; 5; 6; 7].

(* ================================================================== *)
(** * Properties *)

(** ** The result monad *)

Lemma bind_ok {A B : Type} (m : result A) (k : A -> result B) (b : B) :
  bind m k = Ok b -> exists a, m = Ok a /\ k a = Ok b.
Proof.
  destruct m as [a | e]; simpl; intros Hk.
  - exists a; split; [reflexivity | exact Hk].
  - discriminate Hk.
Qed.

Lemma for_each_app {A S : Type} (body : S -> A -> result S)
  (xs ys : list A) (s : S) :
  for_each body (xs ++ ys) s = (s' <- for_each body xs s ;; for_each body ys s').
Proof.
  revert s; induction xs as [| x xs IH]; intros s; simpl.
  - reflexivity.
  - destruct (body s x) as [s1 | e]; simpl.
    + apply IH.
    + reflexivity.
Qed.

Lemma traverse_length {A B : Type} (f : A -> result B) (l : list A)
  (ys : list B) :
  traverse f l = Ok ys -> length ys = length l.
Proof.
  revert ys; induction l as [| x l IH]; simpl; intros ys Hys.
  - injection Hys as <-; reflexivity.
  - destruct (f x) as [y | e]; simpl in Hys; [| discriminate].
    destruct (traverse f l) as [ys' | e]; simpl in Hys; [| discriminate].
    injection Hys as <-; simpl; f_equal; apply IH; reflexivity.
Qed.

Lemma traverse_map_ok {A B : Type} (f : A -> result B) (g : A -> B)
  (l : list A) :
  (forall x, In x l -> f x = Ok (g x)) -> traverse f l = Ok (map g l).
Proof.
  induction l as [| x l IH]; simpl; intros Hf.
  - reflexivity.
  - rewrite (Hf x (or_introl eq_refl)); simpl.
    rewrite IH by (intros y Hy; apply Hf; right; exact Hy).
    reflexivity.
Qed.

(** ** Input validation *)

Lemma finite_values_ok (l : list pyfloat) :
  existsb float_is_nan l = false ->
  exists xs, traverse finite_value l = Ok xs /\ length xs = length l.
Proof.
  induction l as [| x l IH]; simpl; intros Hnan.
  - exists []; split; reflexivity.
  - apply orb_false_iff in Hnan as [Hx Hl].
    destruct (IH Hl) as (xs & Hxs & Hlen).
    destruct x as [r |]; [| discriminate Hx].
    exists (r :: xs); simpl; rewrite Hxs; simpl.
    split; [reflexivity | f_equal; exact Hlen].
Qed.

(** A signal that passes validation is a numeric array without NaN: its
    real values exist, one per sample. *)
Lemma validation_numeric (sig : pyobj) :
  _input_validation sig = Ok tt ->
  exists xs, numeric_values (np_array sig) = Ok xs
             /\ length xs = np_len (np_array sig).
Proof.
  unfold _input_validation.
  destruct (isinstance_valid_types sig); simpl; [| discriminate].
  destruct (np_array sig) as [l | l | l | l | l | l]; simpl;
    try discriminate.
  - intros _; exists (map IZR l); split; [reflexivity | apply length_map].
  - intros _; exists (map IZR l); split; [reflexivity | apply length_map].
  - destruct (existsb float_is_nan l) eqn:Hnan; [discriminate |].
    intros _; apply finite_values_ok; exact Hnan.
Qed.

Lemma existsb_nan_in (l : list pyfloat) :
  In NaN l -> existsb float_is_nan l = true.
Proof.
  intros Hin; apply existsb_exists; exists NaN; split; [exact Hin | reflexivity].
Qed.

(** A float64 array, series or converted list holding a NaN is rejected
    by the null check of line 50. *)
Lemma validation_nan_float (sig : pyobj) (l : list pyfloat) :
  isinstance_valid_types sig = true ->
  np_array sig = ArrFloat l ->
  In NaN l ->
  _input_validation sig = Raise (ValueError msg_null).
Proof.
  intros Hty Harr Hin; unfold _input_validation.
  rewrite Hty, Harr; simpl.
  rewrite (existsb_nan_in l Hin); reflexivity.
Qed.

(** A list of Python numbers (ints that fit int64 or uint64, floats,
    booleans) with a NaN in it converts to a float64 array that still
    holds the NaN. *)
Lemma np_array_of_numbers_nan (l : list pyelem) :
  existsb is_big_int l = false ->
  existsb is_str l = false ->
  In (EFloat NaN) l ->
  np_array_of_list l = ArrFloat (map elem_to_float l)
  /\ In NaN (map elem_to_float l).
Proof.
  intros Hbig Hstr Hin.
  assert (Hfl : existsb is_float l = true).
  { apply existsb_exists; exists (EFloat NaN); split; [exact Hin | reflexivity]. }
  split.
  - unfold np_array_of_list; destruct l as [| e l]; [destruct Hin |].
    rewrite Hbig, Hstr, Hfl; reflexivity.
  - apply (in_map elem_to_float) in Hin; exact Hin.
Qed.

(** ** Arrays, broadcasting and sums *)

Lemma map_nth_seq {A : Type} (d : A) (l : list A) :
  map (fun j => nth j l d) (seq 0 (length l)) = l.
Proof.
  induction l as [| x l IH]; simpl.
  - reflexivity.
  - f_equal. rewrite <- seq_shift, map_map; simpl. exact IH.
Qed.

(** Transposing the single row made by [np.tile] gives one column. *)
Lemma transpose_single_row (row : list R) :
  np_transpose [row] = map (fun x => [x]) row.
Proof.
  unfold np_transpose; simpl.
  transitivity (map (fun x => [x]) (map (fun j => nth j row 0%R)
                                        (seq 0 (length row)))).
  - rewrite map_map; reflexivity.
  - rewrite map_nth_seq; reflexivity.
Qed.

Lemma traverse_map {A B D : Type} (f : B -> result D) (g : A -> B)
  (l : list A) :
  traverse f (map g l) = traverse (fun x => f (g x)) l.
Proof.
  induction l as [| x l IH]; simpl; [reflexivity | rewrite IH; reflexivity].
Qed.

Lemma zip_with_map_same {A B D E : Type} (op : B -> D -> E)
  (s : A -> B) (r : A -> D) (l : list A) :
  zip_with op (map s l) (map r l) = map (fun a => op (s a) (r a)) l.
Proof.
  induction l as [| a l IH]; simpl; [reflexivity | rewrite IH; reflexivity].
Qed.

(** A vector against a one-element row: the row entry is stretched. *)
Lemma broadcast_row_column (op : R -> R -> R) (v : list R) (x : R) :
  broadcast_row op v [x] = Ok (map (fun a => op a x) v).
Proof.
  unfold broadcast_row; simpl length.
  destruct (length v =? 1)%nat eqn:Hlen.
  - apply Nat.eqb_eq in Hlen.
    destruct v as [| a [| b v]]; try discriminate Hlen; reflexivity.
  - reflexivity.
Qed.

(** A vector against a row of its own length: element by element. *)
Lemma broadcast_row_same (op : R -> R -> R) (v row : list R) :
  length v = length row ->
  broadcast_row op v row = Ok (zip_with op v row).
Proof.
  intros Hlen; unfold broadcast_row.
  rewrite Hlen, Nat.eqb_refl; reflexivity.
Qed.

Lemma Rsum_app (a b : list R) : Rsum (a ++ b) = (Rsum a + Rsum b)%R.
Proof.
  induction a as [| x a IH]; simpl.
  - lra.
  - rewrite IH; lra.
Qed.

Lemma Rsum_concat (m : array2) : Rsum (concat m) = Rsum (map Rsum m).
Proof.
  induction m as [| row m IH]; simpl.
  - reflexivity.
  - rewrite Rsum_app, IH; reflexivity.
Qed.

(** ** The window weight *)

Lemma IZR_square (f : Z) : IZR (f ^ 2) = (IZR f ^ 2)%R.
Proof. change 2 with (Z.of_nat 2); rewrite <- pow_IZR; reflexivity. Qed.

(** One entry of the array [G] as the code computes it is the envelope
    of the specification. *)
Lemma envelope_entry (self : HSTransform) (n : Z) (x : R) (f : Z) :
  (IZR (2 * Z.abs f)
   * exp (IZR (- f ^ 2) * x ^ 2 / IZR (2 * n ^ 2))
   / ((forwardtaper self + backwardtaper self) * sqrt (2 * PI)))%R
  = envelope self n x f.
Proof.
  unfold envelope.
  rewrite !mult_IZR, opp_IZR, !IZR_square; reflexivity.
Qed.

(** The first broadcast of line 80: a vector against a column. *)
Lemma broadcast_against_column (v : list R) (xs : list R) :
  broadcast_1d_2d Rmult v
    (map (map (fun x => (x ^ 2)%R)) (map (fun x => [x]) xs))
  = Ok (map (fun x => map (fun a => (a * x ^ 2)%R) v) xs).
Proof.
  unfold broadcast_1d_2d.
  rewrite map_map, traverse_map.
  apply traverse_map_ok; intros x _; simpl.
  apply broadcast_row_column.
Qed.

(** The second broadcast of line 81: a vector against rows of its own
    length. *)
Lemma broadcast_against_rows {A : Type} (s : A -> R) (r : R -> A -> R)
  (vf : list A) (xs : list R) :
  broadcast_1d_2d Rmult (map s vf) (map (fun x => map (r x) vf) xs)
  = Ok (map (fun x => map (fun f => (s f * r x f)%R) vf) xs).
Proof.
  unfold broadcast_1d_2d.
  rewrite traverse_map.
  apply traverse_map_ok; intros x _.
  rewrite broadcast_row_same by (rewrite !length_map; reflexivity).
  rewrite zip_with_map_same; reflexivity.
Qed.

(** The code's pipeline (tile, transpose, two broadcasts, sum) computes
    the envelope summed over the doubled warp vector. *)
Lemma compute_hyperbolic_gaussian_eq
  (self : HSTransform) (L n : Z) (time : list R) :
  _compute_hyperbolic_gaussian self L n time
  = Ok (window_weight_spec self L n time).
Proof.
  unfold _compute_hyperbolic_gaussian, window_weight_spec, np_tile_1_2.
  set (X := map (time_warp self) time).
  set (vf := np_arange 0 L).
  rewrite transpose_single_row, broadcast_against_column.
  simpl bind.
  set (r := fun (x : R) (f : Z) =>
              exp (IZR (- f ^ 2) * x ^ 2 / IZR (2 * n ^ 2))).
  replace (map (map exp) _)
    with (map (fun x => map (r x) vf) (X ++ X)).
  2:{ rewrite !map_map; apply map_ext; intros x.
      rewrite !map_map; reflexivity. }
  rewrite broadcast_against_rows.
  simpl bind.
  unfold np_sum, envelope_sum.
  rewrite Rsum_concat, !map_map.
  do 2 f_equal.
  apply map_ext; intros x.
  rewrite map_map; f_equal.
  apply map_ext; intros f.
  apply envelope_entry.
Qed.

Lemma envelope_sum_app (self : HSTransform) (L n : Z) (xs ys : list R) :
  envelope_sum self L n (xs ++ ys)
  = (envelope_sum self L n xs + envelope_sum self L n ys)%R.
Proof. unfold envelope_sum; rewrite map_app, Rsum_app; reflexivity. Qed.

(** ** The textbook transform is a Fourier library *)

Lemma dft_length (sgn : R) (x : list C) : length (dft sgn x) = length x.
Proof. unfold dft; rewrite length_map, length_seq; reflexivity. Qed.

Lemma dft_forward_length (x : list C) : length (dft_forward x) = length x.
Proof. apply dft_length. Qed.

Lemma dft_inverse_length (x : list C) : length (dft_inverse x) = length x.
Proof. unfold dft_inverse; rewrite length_map; apply dft_length. Qed.

Definition dft_lib : FourierLib :=
  {| fft := dft_forward;
     ifft := dft_inverse;
     fft_length := dft_forward_length;
     ifft_length := dft_inverse_length |}.

(** ** Python ranges, slices and row assignment *)

(** With a positive step, [range(fs, M, fs)] is [fs, 2·fs, ...], with
    [(M - 1) // fs] elements. *)
Lemma py_range_stride (fs M : Z) :
  0 < fs ->
  py_range fs M fs
  = Ok (map (fun i => (Z.of_nat i + 1) * fs)
            (seq 0 (Z.to_nat ((M - 1) / fs)))).
Proof.
  intros Hfs; unfold py_range, range_len.
  destruct (Z.eqb_spec fs 0) as [-> | _]; [lia |].
  destruct (Z.ltb_spec 0 fs) as [_ | ?]; [| lia].
  assert (Hcount : (if fs <? M then (M - fs - 1) / fs + 1 else 0) <= 0
                   /\ (M - 1) / fs <= 0
                   \/ (if fs <? M then (M - fs - 1) / fs + 1 else 0)
                      = (M - 1) / fs).
  { destruct (Z.ltb_spec fs M) as [Hlt | Hge].
    - right. replace (M - fs - 1) with (M - 1 + (-1) * fs) by ring.
      rewrite Z.div_add by lia; ring.
    - left; split; [lia |].
      destruct (Z.le_gt_cases M 0) as [Hneg | Hpos].
      + assert ((M - 1) / fs < 0) by (apply Z.div_lt_upper_bound; lia). lia.
      + rewrite Z.div_small by lia; lia. }
  f_equal.
  destruct Hcount as [[H1 H2] | ->].
  - replace (Z.to_nat _) with O by lia.
    replace (Z.to_nat _) with O by lia.
    reflexivity.
  - apply map_ext; intros i; ring.
Qed.

(** Whatever the non-zero step, every element of [range(fs, M, fs)]
    is a positive multiple of the step. *)
Lemma py_range_multiples (fs M : Z) (ks : list Z) :
  py_range fs M fs = Ok ks ->
  fs <> 0 /\ forall k, In k ks -> 1 <= k / fs.
Proof.
  unfold py_range.
  destruct (Z.eqb_spec fs 0) as [| Hfs]; [discriminate |].
  intros Hks; injection Hks as <-; split; [exact Hfs |].
  intros k Hin; apply in_map_iff in Hin as (i & <- & _).
  replace (fs + Z.of_nat i * fs) with (0 + (1 + Z.of_nat i) * fs) by ring.
  rewrite Z.div_add by exact Hfs.
  rewrite Z.div_0_l by exact Hfs; lia.
Qed.

(** A slice that fits inside the list is the plain window. *)
Lemma py_slice_inside {A : Type} (l : list A) (a : Z) (n : nat) :
  0 <= a ->
  a + Z.of_nat n <= Z.of_nat (length l) ->
  py_slice l a (a + Z.of_nat n) = firstn n (skipn (Z.to_nat a) l)
  /\ length (py_slice l a (a + Z.of_nat n)) = n.
Proof.
  intros Ha Hfit; unfold py_slice, clamp_bound.
  destruct (Z.ltb_spec a 0) as [? | _]; [lia |].
  destruct (Z.ltb_spec (a + Z.of_nat n) 0) as [? | _]; [lia |].
  rewrite !Z.min_l by lia.
  replace (Z.to_nat (a + Z.of_nat n - a)) with n by lia.
  split; [reflexivity |].
  rewrite length_firstn, length_skipn; lia.
Qed.

Lemma replace_nth_length {A : Type} (n : nat) (x : A) (l : list A) :
  length (replace_nth n x l) = length l.
Proof.
  revert n; induction l as [| y l IH]; intros [| n]; simpl;
    try reflexivity.
  f_equal; apply IH.
Qed.

Lemma replace_nth_app {A : Type} (pre : list A) (x y : A) (post : list A) :
  replace_nth (length pre) x (pre ++ y :: post) = pre ++ x :: post.
Proof.
  induction pre as [| p pre IH]; simpl; [reflexivity | rewrite IH; reflexivity].
Qed.

Lemma replace_nth_head {A : Type} (n : nat) (x : A) (l : list A) :
  (1 <= n)%nat -> nth_error (replace_nth n x l) 0 = nth_error l 0.
Proof.
  intros Hn; destruct l as [| y l]; destruct n as [| n]; simpl;
    try reflexivity; lia.
Qed.

(** Writing a full-width row at an index inside the matrix. *)
Lemma set_row_inside (S : cmatrix) (i : Z) (v : list C) :
  0 <= i < Z.of_nat (nrows S) ->
  length v = ncols S ->
  set_row S i v
  = Ok {| ncols := ncols S; rows := replace_nth (Z.to_nat i) v (rows S) |}.
Proof.
  intros Hi Hlen; unfold set_row.
  destruct (Z.ltb_spec i (- Z.of_nat (nrows S))) as [? | _]; [lia |].
  destruct (Z.leb_spec (Z.of_nat (nrows S)) i) as [? | _]; [lia |].
  destruct (Z.ltb_spec i 0) as [? | _]; [lia |].
  simpl; rewrite Hlen, Nat.eqb_refl; reflexivity.
Qed.

(** Writing at or past the row count is NumPy's [IndexError]. *)
Lemma set_row_outside (S : cmatrix) (i : Z) (v : list C) :
  Z.of_nat (nrows S) <= i ->
  set_row S i v = Raise (IndexError "index is out of bounds for axis 0").
Proof.
  intros Hi; unfold set_row.
  destruct (Z.leb_spec (Z.of_nat (nrows S)) i) as [_ | ?]; [| lia].
  rewrite orb_true_r; reflexivity.
Qed.

(** A successful write at a row index of at least one leaves the
    shape and row 0 as they were. *)
Lemma set_row_keeps_head (S S' : cmatrix) (i : Z) (v : list C) :
  1 <= i ->
  set_row S i v = Ok S' ->
  ncols S' = ncols S /\ nrows S' = nrows S
  /\ nth_error (rows S') 0 = nth_error (rows S) 0.
Proof.
  intros Hi; unfold set_row.
  destruct ((i <? - Z.of_nat (nrows S)) || (Z.of_nat (nrows S) <=? i));
    [discriminate |].
  destruct (Z.ltb_spec i 0) as [? | _]; [lia |].
  destruct (length v =? ncols S)%nat;
    [| destruct (length v =? 1)%nat; [| discriminate]];
    intros Hok; injection Hok as <-; unfold nrows; simpl;
    rewrite replace_nth_length;
    (split; [reflexivity | split; [reflexivity |]]);
    apply replace_nth_head; lia.
Qed.

(** ** The transform loop *)

Lemma numeric_values_length (a : ndarray) (xs : list R) :
  numeric_values a = Ok xs -> length xs = np_len a.
Proof.
  destruct a as [l | l | l | l | l | l]; simpl; try discriminate.
  - intros Hxs; injection Hxs as <-; apply length_map.
  - intros Hxs; injection Hxs as <-; apply length_map.
  - apply traverse_length.
Qed.

Section TransformProperties.

Context `{FL : FourierLib}.

Variables (self : HSTransform) (time_values : list R) (xs : list R).
Variables (minf fs : Z).

Local Abbreviation N := (Z.of_nat (length xs)).
Local Abbreviation H := (fft (map RtoC xs) ++ fft (map RtoC xs)).
Local Abbreviation body := (loop_body self N minf fs time_values H).
Local Abbreviation kof := (fun i : nat => (Z.of_nat i + 1) * fs).
Local Abbreviation row_of := (voice_row self time_values xs minf).

Lemma doubled_spectrum_length : Z.of_nat (length H) = 2 * N.
Proof. rewrite length_app, fft_length, length_map; lia. Qed.

(** For a step [k] inside the analysed band the window lies inside the
    doubled spectrum and has the full length. *)
Lemma window_inside (k : Z) :
  0 <= minf -> 1 <= k -> minf + k <= N / 2 ->
  py_slice H (minf + k + 1) (minf + k + N + 1)
  = spectrum_window (fft (map RtoC xs)) (length xs) (minf + k + 1)
  /\ length (spectrum_window (fft (map RtoC xs)) (length xs) (minf + k + 1))
     = length xs
  /\ (2 <= length xs)%nat.
Proof.
  intros Hminf Hk Hband.
  assert (HN : 2 <= N) by (Z.div_mod_to_equations; lia).
  assert (Hhalf : N / 2 + 1 <= N) by (Z.div_mod_to_equations; lia).
  replace (minf + k + N + 1) with (minf + k + 1 + N) by ring.
  destruct (py_slice_inside H (minf + k + 1) (length xs)) as [Heq Hlen];
    [lia | rewrite doubled_spectrum_length; lia |].
  unfold spectrum_window.
  split; [exact Heq |].
  split; [rewrite <- Heq; exact Hlen | lia].
Qed.

Lemma voice_row_length (k : Z) :
  0 <= minf -> 1 <= k -> minf + k <= N / 2 ->
  length (row_of k) = length xs.
Proof.
  intros Hminf Hk Hband.
  destruct (window_inside k Hminf Hk Hband) as (_ & Hlen & _).
  unfold voice_row, weighted_inverse.
  rewrite ifft_length, length_map; exact Hlen.
Qed.

(** One loop step inside the band: the row is computed without error
    and handed to the row assignment. *)
Lemma loop_body_step (S : cmatrix) (k : Z) :
  fs <> 0 -> 0 <= minf -> 1 <= k -> minf + k <= N / 2 ->
  body S k = set_row S (k / fs) (row_of k).
Proof.
  intros Hfs Hminf Hk Hband.
  destruct (window_inside k Hminf Hk Hband) as (Hslice & Hlen & HN).
  unfold loop_body.
  rewrite compute_hyperbolic_gaussian_eq; simpl bind.
  rewrite Hslice.
  unfold scipy_ifft, voice_row, weighted_inverse.
  destruct (map _ (spectrum_window _ _ _)) as [| c cs] eqn:Hmap.
  - apply (f_equal (@length C)) in Hmap.
    rewrite length_map, Hlen in Hmap; simpl in Hmap; lia.
  - simpl bind. unfold py_floordiv.
    destruct (Z.eqb_spec fs 0) as [? | _]; [contradiction |].
    reflexivity.
Qed.

(** The loop fills the zero rows one after the other. *)
Lemma loop_fills (c a : nat) (pre : list (list C)) :
  0 < fs -> 0 <= minf ->
  length pre = Datatypes.S a ->
  (forall i, (a <= i < a + c)%nat -> minf + kof i <= N / 2) ->
  for_each body (map kof (seq a c))
    {| ncols := length xs; rows := pre ++ repeat (repeat C0 (length xs)) c |}
  = Ok {| ncols := length xs;
          rows := pre ++ map (fun i => row_of (kof i)) (seq a c) |}.
Proof.
  intros Hfs Hminf; revert a pre.
  induction c as [| c IH]; intros a pre Hpre Hband; simpl.
  - reflexivity.
  - assert (Hk : 1 <= kof a) by nia.
    assert (Hka : minf + kof a <= N / 2) by (apply Hband; lia).
    rewrite loop_body_step by (lia || assumption).
    rewrite Z.div_mul by lia.
    rewrite set_row_inside.
    2:{ unfold nrows; simpl; rewrite length_app; simpl; lia. }
    2:{ simpl; apply voice_row_length; assumption. }
    simpl bind. simpl ncols. simpl rows.
    replace (Z.to_nat (Z.of_nat a + 1)) with (length pre) by lia.
    rewrite replace_nth_app.
    replace (pre ++ row_of (kof a) :: repeat (repeat C0 (length xs)) c)
      with ((pre ++ [row_of (kof a)]) ++ repeat (repeat C0 (length xs)) c)
      by (rewrite <- app_assoc; reflexivity).
    rewrite (IH (Datatypes.S a) (pre ++ [row_of (kof a)])).
    + rewrite <- app_assoc; reflexivity.
    + rewrite length_app; simpl; lia.
    + intros i Hi; apply Hband; lia.
Qed.

End TransformProperties.

(** ** Runs of [fit_transform] *)

Lemma dc_row_length (xs : list R) : length (dc_row xs) = length xs.
Proof.
  unfold dc_row, dc_mask, np_arange.
  rewrite !length_map, length_seq; lia.
Qed.

Section Runs.

Context `{FL : FourierLib}.

Variables (self : HSTransform) (time_values : list R).
Variables (sig : pyobj) (xs : list R) (minf fs : Z).

Hypothesis Hvalid : _input_validation sig = Ok tt.
Hypothesis Hvalues : numeric_values (np_array sig) = Ok xs.
Hypothesis Hnonempty : xs <> [].

Local Abbreviation N := (Z.of_nat (length xs)).
Local Abbreviation M := (Z.min 900 (N / 2) - minf + 1).
Local Abbreviation H := (fft (map RtoC xs) ++ fft (map RtoC xs)).

(** Past validation and the forward transform, the call is the
    allocation, the DC row and the loop. *)
Lemma fit_transform_after_fft :
  fit_transform self time_values sig minf fs
  = (nr <- py_floordiv M fs ;;
     S <- np_zeros nr (length xs) ;;
     S <- set_row S 0 (map RtoC (dc_row xs)) ;;
     ks <- py_range fs M fs ;;
     for_each (loop_body self N minf fs time_values H) ks S).
Proof.
  unfold fit_transform.
  rewrite Hvalid, Hvalues; simpl bind.
  rewrite <- (numeric_values_length _ _ Hvalues).
  unfold scipy_fft.
  destruct (map RtoC xs) as [| c cs] eqn:Hmap.
  - destruct xs; [contradiction | discriminate Hmap].
  - reflexivity.
Qed.

(** More minimum frequency than band: the allocation has a negative
    row count. *)
Lemma fit_transform_negative_rows :
  0 < fs -> M < 0 ->
  fit_transform self time_values sig minf fs
  = Raise (ValueError "negative dimensions are not allowed").
Proof.
  intros Hfs HM.
  rewrite fit_transform_after_fft; unfold py_floordiv.
  destruct (Z.eqb_spec fs 0) as [? | _]; [lia |].
  simpl bind; unfold np_zeros.
  assert (Hneg : M / fs < 0) by (apply Z.div_lt_upper_bound; lia).
  destruct (Z.ltb_spec (M / fs) 0) as [_ | ?]; [| lia].
  reflexivity.
Qed.

(** A stride that divides the band: every row is written. *)
Lemma fit_transform_divisible :
  0 <= minf -> 0 < fs -> 1 <= M -> M mod fs = 0 ->
  fit_transform self time_values sig minf fs
  = Ok {| ncols := length xs;
          rows := transform_rows self time_values xs minf fs
                    (Z.to_nat (M / fs - 1)) |}.
Proof.
  intros Hminf Hfs HM Hdiv.
  rewrite fit_transform_after_fft; unfold py_floordiv.
  destruct (Z.eqb_spec fs 0) as [? | _]; [lia |].
  simpl bind; unfold np_zeros.
  assert (HMq : M = fs * (M / fs)).
  { rewrite (Z.div_mod M fs) at 1 by lia. rewrite Hdiv; ring. }
  assert (Hq : 1 <= M / fs) by nia.
  destruct (Z.ltb_spec (M / fs) 0) as [? | _]; [lia |].
  simpl bind.
  replace (Z.to_nat (M / fs)) with (Datatypes.S (Z.to_nat (M / fs - 1)))
    by lia.
  simpl repeat.
  rewrite set_row_inside;
    [| unfold nrows; simpl; lia
     | simpl; rewrite length_map; apply dc_row_length].
  simpl bind. simpl ncols. simpl rows. simpl replace_nth.
  rewrite py_range_stride by exact Hfs.
  simpl bind.
  assert (Hcount : (M - 1) / fs = M / fs - 1).
  { symmetry; apply (Z.div_unique_pos (M - 1) fs (M / fs - 1) (fs - 1)); lia. }
  rewrite Hcount.
  unfold transform_rows.
  apply (loop_fills self time_values xs minf fs
           (Z.to_nat (M / fs - 1)) 0 [map RtoC (dc_row xs)]);
    [exact Hfs | exact Hminf | reflexivity |].
  intros i Hi.
  assert ((Z.of_nat i + 1) * fs <= (M / fs - 1) * fs) by nia.
  lia.
Qed.

(** A stride that does not divide the band, or an empty band: a row is
    written outside the allocated matrix. *)
Lemma fit_transform_index_error :
  0 <= minf -> 0 < fs -> 0 <= M -> M mod fs <> 0 \/ M = 0 ->
  fit_transform self time_values sig minf fs
  = Raise (IndexError "index is out of bounds for axis 0").
Proof.
  intros Hminf Hfs HM Hndiv.
  rewrite fit_transform_after_fft; unfold py_floordiv.
  destruct (Z.eqb_spec fs 0) as [? | _]; [lia |].
  simpl bind; unfold np_zeros.
  assert (Hq : 0 <= M / fs) by (apply Z.div_pos; lia).
  destruct (Z.ltb_spec (M / fs) 0) as [? | _]; [lia |].
  simpl bind.
  destruct (Z.eq_dec (M / fs) 0) as [Hzero | Hpos].
  - rewrite Hzero; simpl repeat.
    rewrite set_row_outside by (unfold nrows; simpl; lia).
    reflexivity.
  - assert (Hrem : M mod fs <> 0).
    { destruct Hndiv as [Hr | H0]; [exact Hr |].
      rewrite H0, Z.div_0_l in Hpos by lia; contradiction. }
    pose proof (Z.mod_pos_bound M fs Hfs) as Hbound.
    pose proof (Z.div_mod M fs ltac:(lia)) as HMq.
    replace (Z.to_nat (M / fs)) with (Datatypes.S (Z.to_nat (M / fs - 1)))
      by lia.
    simpl repeat.
    rewrite set_row_inside;
      [| unfold nrows; simpl; lia
       | simpl; rewrite length_map; apply dc_row_length].
    simpl bind. simpl ncols. simpl rows. simpl replace_nth.
    rewrite py_range_stride by exact Hfs.
    simpl bind.
    assert (Hcount : (M - 1) / fs = M / fs).
    { symmetry;
        apply (Z.div_unique_pos (M - 1) fs (M / fs) (M mod fs - 1)); lia. }
    rewrite Hcount.
    replace (Z.to_nat (M / fs)) with (Datatypes.S (Z.to_nat (M / fs - 1)))
      by lia.
    rewrite seq_S, map_app, for_each_app.
    rewrite (loop_fills self time_values xs minf fs
               (Z.to_nat (M / fs - 1)) 0 [map RtoC (dc_row xs)]);
      [| exact Hfs | exact Hminf | reflexivity |].
    2:{ intros i Hi.
        assert ((Z.of_nat i + 1) * fs <= (M / fs - 1) * fs) by nia.
        nia. }
    simpl bind. simpl for_each.
    rewrite loop_body_step; [| lia | exact Hminf | nia | nia].
    rewrite Z.div_mul by lia.
    rewrite set_row_outside.
    + reflexivity.
    + unfold nrows; simpl; rewrite length_map, length_seq; lia.
Qed.

(** The three cases cover every call with [0 <= minf] and [0 < fs]:
    a returned matrix is the one of the divisible case. *)
Lemma fit_transform_returns (S : cmatrix) :
  0 <= minf -> 0 < fs ->
  fit_transform self time_values sig minf fs = Ok S ->
  1 <= M /\ M mod fs = 0
  /\ S = {| ncols := length xs;
            rows := transform_rows self time_values xs minf fs
                      (Z.to_nat (M / fs - 1)) |}.
Proof.
  intros Hminf Hfs Hrun.
  destruct (Z.lt_ge_cases M 0) as [Hneg | Hnn].
  - rewrite fit_transform_negative_rows in Hrun by assumption; discriminate.
  - destruct (Z.eq_dec (M mod fs) 0) as [Hdiv | Hndiv].
    + destruct (Z.eq_dec M 0) as [H0 | Hn0].
      * rewrite fit_transform_index_error in Hrun
          by (try assumption; right; exact H0).
        discriminate.
      * rewrite fit_transform_divisible in Hrun by (try assumption; lia).
        injection Hrun as <-.
        split; [lia | split; [exact Hdiv | reflexivity]].
    + rewrite fit_transform_index_error in Hrun
        by (try assumption; left; exact Hndiv).
      discriminate.
Qed.

End Runs.

(** ** Row 0 survives the loop *)

Section DCRow.

Context `{FL : FourierLib}.

Variables (self : HSTransform) (time_values : list R).

Lemma loop_body_writes (N minf fs : Z) (H : list C) (S S' : cmatrix) (k : Z) :
  fs <> 0 ->
  loop_body self N minf fs time_values H S k = Ok S' ->
  exists row, set_row S (k / fs) row = Ok S'.
Proof.
  intros Hfs Hrun; unfold loop_body in Hrun.
  apply bind_ok in Hrun as (W & _ & Hrun).
  apply bind_ok in Hrun as (row & _ & Hrun).
  apply bind_ok in Hrun as (i & Hi & Hrun).
  unfold py_floordiv in Hi.
  destruct (Z.eqb_spec fs 0) as [? | _]; [contradiction |].
  injection Hi as <-.
  exists row; exact Hrun.
Qed.

Lemma loop_keeps_head (N minf fs : Z) (H : list C) (ks : list Z) :
  fs <> 0 ->
  (forall k, In k ks -> 1 <= k / fs) ->
  forall S S',
    for_each (loop_body self N minf fs time_values H) ks S = Ok S' ->
    ncols S' = ncols S /\ nrows S' = nrows S
    /\ nth_error (rows S') 0 = nth_error (rows S) 0.
Proof.
  intros Hfs; induction ks as [| k ks IH]; intros Hks S S' Hrun; simpl in Hrun.
  - injection Hrun as <-; repeat split; reflexivity.
  - apply bind_ok in Hrun as (S1 & Hstep & Hrest).
    apply (loop_body_writes _ _ _ _ _ _ _ Hfs) in Hstep as (row & Hset).
    apply set_row_keeps_head in Hset as (Hc & Hr & Hh);
      [| apply Hks; left; reflexivity].
    apply IH in Hrest as (Hc' & Hr' & Hh');
      [| intros k' Hk'; apply Hks; right; exact Hk'].
    repeat split; congruence.
Qed.

Lemma set_row_zero (S S' : cmatrix) (v : list C) :
  length v = ncols S ->
  set_row S 0 v = Ok S' ->
  ncols S' = ncols S /\ nth_error (rows S') 0 = Some v.
Proof.
  intros Hlen; unfold set_row.
  destruct (Z.leb_spec (Z.of_nat (nrows S)) 0) as [? | Hrows];
    [rewrite orb_true_r; discriminate |].
  destruct (0 <? - Z.of_nat (nrows S)); [discriminate |].
  simpl; rewrite Hlen, Nat.eqb_refl.
  intros Hok; injection Hok as <-; simpl.
  split; [reflexivity |].
  unfold nrows in Hrows; destruct (rows S); simpl in *; [lia | reflexivity].
Qed.

(** Whatever [minf] and the stride, a returned matrix has the signal's
    width, and its row 0 is the right-hand side of line 127. *)
Lemma fit_transform_dc_row (sig : pyobj) (minf fs : Z) (S : cmatrix) :
  fit_transform self time_values sig minf fs = Ok S ->
  exists xs,
    _input_validation sig = Ok tt
    /\ numeric_values (np_array sig) = Ok xs
    /\ xs <> []
    /\ ncols S = length xs
    /\ nth_error (rows S) 0 = Some (map RtoC (dc_row xs)).
Proof.
  intros Hrun; unfold fit_transform in Hrun.
  apply bind_ok in Hrun as ([] & Hvalid & Hrun).
  apply bind_ok in Hrun as (xs & Hxs & Hrun).
  apply bind_ok in Hrun as (H & Hfft & Hrun).
  apply bind_ok in Hrun as (nr & _ & Hrun).
  apply bind_ok in Hrun as (S0 & Hzeros & Hrun).
  apply bind_ok in Hrun as (S1 & Hset & Hrun).
  apply bind_ok in Hrun as (ks & Hks & Hrun).
  exists xs.
  assert (Hne : xs <> []).
  { intros ->; simpl in Hfft; discriminate. }
  assert (Hcols : ncols S0 = length xs).
  { unfold np_zeros in Hzeros; destruct (nr <? 0); [discriminate |].
    injection Hzeros as <-; simpl.
    symmetry; apply numeric_values_length; exact Hxs. }
  apply set_row_zero in Hset as (Hc1 & Hrow);
    [| rewrite length_map, dc_row_length; congruence].
  apply py_range_multiples in Hks as (Hfs & Hmult).
  apply (loop_keeps_head _ _ _ _ _ Hfs Hmult) in Hrun as (Hc & _ & Hh).
  repeat split; try assumption; congruence.
Qed.

End DCRow.

(* ================================================================== *)
(** * The claims *)

(** ** Validation order *)

(** A numeric signal (array, series or list of Python numbers) with a
    NaN in it is stopped by the null check: the call ends in the
    [ValueError] of line 50 whatever the Fourier library, the time axis,
    [minf] and the stride are. *)
Lemma nan_in_numeric_signal_rejected `{FL : FourierLib}
  (self : HSTransform) (time_values : list R) (sig : pyobj)
  (l : list pyfloat) (minf fs : Z) :
  isinstance_valid_types sig = true ->
  np_array sig = ArrFloat l ->
  In NaN l ->
  fit_transform self time_values sig minf fs = Raise (ValueError msg_null).
Proof.
  intros Hty Harr Hin; unfold fit_transform.
  rewrite (validation_nan_float sig l Hty Harr Hin); reflexivity.
Qed.

(** A list of Python numbers whose ints fit int64 or uint64, with a
    NaN in it, is a float64 array holding the NaN and is stopped by the
    null check. *)
Lemma nan_in_number_list_rejected `{FL : FourierLib}
  (self : HSTransform) (time_values : list R) (l : list pyelem)
  (minf fs : Z) :
  existsb is_big_int l = false ->
  existsb is_str l = false ->
  In (EFloat NaN) l ->
  fit_transform self time_values (PyList l) minf fs
  = Raise (ValueError msg_null).
Proof.
  intros Hbig Hstr Hin.
  destruct (np_array_of_numbers_nan l Hbig Hstr Hin) as [Harr Hnan].
  unfold fit_transform.
  rewrite (validation_nan_float (PyList l) (map elem_to_float l)
             eq_refl Harr Hnan).
  reflexivity.
Qed.

(** C7, at the input where the code departs from it: the list
    [[nan, 'a']] holds a NaN, yet [np.isnan] is applied to the string
    array it converts to and the call ends in [TypeError], not in
    [ValueError]. *)
Theorem nan_beside_string_raises_type_error `{FL : FourierLib}
  (self : HSTransform) (time_values : list R) (minf fs : Z) :
  let input_signal := PyList [EFloat NaN; EStr "a"] in
  In (EFloat NaN) [EFloat NaN; EStr "a"]
  /\ fit_transform self time_values input_signal minf fs
     = Raise (TypeError "ufunc 'isnan' not supported for the input types")
  /\ is_value_error (fit_transform self time_values input_signal minf fs)
     = false.
Proof.
  simpl; split; [left; reflexivity | split; reflexivity].
Qed.

(** C8, at the inputs where the code departs from it: for every
    non-empty list of strings the call ends in the [TypeError] that
    [np.isnan] raises on a string array; the dtype check of line 52,
    which would raise [ValueError], is never reached. *)
Theorem string_list_raises_type_error `{FL : FourierLib}
  (self : HSTransform) (time_values : list R) (s : string)
  (rest : list string) (minf fs : Z) :
  let input_signal := PyList (EStr s :: map EStr rest) in
  fit_transform self time_values input_signal minf fs
  = Raise (TypeError "ufunc 'isnan' not supported for the input types")
  /\ is_value_error (fit_transform self time_values input_signal minf fs)
     = false.
Proof.
  assert (Hbig : forall l, existsb is_big_int (map EStr l) = false)
    by (induction l; simpl; auto).
  assert (Hrun : fit_transform self time_values
                   (PyList (EStr s :: map EStr rest)) minf fs
                 = Raise (TypeError
                            "ufunc 'isnan' not supported for the input types")).
  { unfold fit_transform, _input_validation; simpl.
    rewrite Hbig; reflexivity. }
  simpl; rewrite Hrun; split; reflexivity.
Qed.

(** ** Shape and rows of the returned matrix *)

Section Rows.

Context `{FL : FourierLib}.

Variables (self : HSTransform) (time_values : list R) (xs : list R).
Variables (minf fs : Z).

Lemma transform_rows_length (count : nat) :
  length (transform_rows self time_values xs minf fs count)
  = Datatypes.S count.
Proof.
  unfold transform_rows; simpl; rewrite length_map, length_seq; reflexivity.
Qed.

Lemma transform_rows_nth (count j : nat) :
  (j < count)%nat ->
  nth_error (transform_rows self time_values xs minf fs count) (Datatypes.S j)
  = Some (voice_row self time_values xs minf ((Z.of_nat j + 1) * fs)).
Proof.
  intros Hj; unfold transform_rows; simpl.
  rewrite nth_error_map, nth_error_nth' with (d := O)
    by (rewrite length_seq; exact Hj).
  rewrite seq_nth by exact Hj; reflexivity.
Qed.

(** Every row has one entry per sample when the steps stay inside the
    band. *)
Lemma transform_rows_width (count : nat) :
  0 <= minf -> 0 < fs ->
  minf + Z.of_nat count * fs <= Z.of_nat (length xs) / 2 ->
  Forall (fun row => length row = length xs)
         (transform_rows self time_values xs minf fs count).
Proof.
  intros Hminf Hfs Hband; unfold transform_rows.
  constructor.
  - rewrite length_map; apply dc_row_length.
  - apply Forall_map, Forall_forall; intros i Hi.
    apply in_seq in Hi.
    apply voice_row_length; [exact Hminf | nia | nia].
Qed.

End Rows.

(** C1, as amended: for a valid numeric signal of length [N >= 1], a
    minimum frequency [0 <= minf <= min(900, N // 2)] and a positive
    stride that divides the band width [min(900, N // 2) - minf + 1],
    [fit_transform] returns a complex matrix with exactly
    (band width // stride) rows and [N] columns. *)
Theorem fit_transform_shape `{FL : FourierLib}
  (self : HSTransform) (time_values : list R) (sig : pyobj) (minf fs : Z) :
  let n := np_len (np_array sig) in
  _input_validation sig = Ok tt ->
  (1 <= n)%nat ->
  0 <= minf <= Z.min 900 (Z.of_nat n / 2) ->
  1 <= fs ->
  band_width n minf mod fs = 0 ->
  returns_floor_shape self time_values sig minf fs.
Proof.
  intros n Hvalid Hlen Hminf Hfs Hdiv.
  destruct (validation_numeric sig Hvalid) as (xs & Hxs & Hn).
  unfold returns_floor_shape; fold n.
  replace n with (length xs) in * by exact Hn.
  unfold band_width in *.
  assert (Hne : xs <> []) by (destruct xs; [simpl in Hlen; lia | discriminate]).
  eexists; split.
  - apply (fit_transform_divisible self time_values sig xs minf fs
             Hvalid Hxs Hne); [lia | lia | lia | exact Hdiv].
  - set (M := Z.min 900 (Z.of_nat (length xs) / 2) - minf + 1) in *.
    assert (HMq : M = fs * (M / fs)).
    { rewrite (Z.div_mod M fs) at 1 by lia. rewrite Hdiv; ring. }
    assert (Hq : 1 <= M / fs) by (subst M; nia).
    unfold nrows; simpl ncols; simpl rows.
    rewrite transform_rows_length.
    split; [lia | split; [reflexivity |]].
    apply transform_rows_width; [lia | lia |].
    replace (Z.of_nat (Z.to_nat (M / fs - 1))) with (M / fs - 1) by lia.
    subst M; nia.
Qed.

(** ** The scenario: eight samples *)

Lemma signal8_valid : _input_validation signal8 = Ok tt.
Proof. reflexivity. Qed.

Lemma signal8_values : numeric_values (np_array signal8) = Ok values8.
Proof. reflexivity. Qed.

Lemma values8_nonempty : values8 <> [].
Proof. discriminate. Qed.

Lemma fit_transform_shape_witness :
  _input_validation signal8 = Ok tt
  /\ (1 <= 8)%nat
  /\ 0 <= 1 <= Z.min 900 (8 / 2)
  /\ 1 <= 2
  /\ band_width 8 1 mod 2 = 0
  /\ returns_floor_shape (FL := dft_lib) default_transform time8 signal8 1 2.
Proof.
  split; [reflexivity |].
  split; [lia |].
  split; [split; [lia | discriminate] |].
  split; [lia |].
  split; [reflexivity |].
  apply (fit_transform_shape (FL := dft_lib) default_transform time8 signal8 1 2).
  - reflexivity.
  - simpl; lia.
  - simpl; split; [lia | discriminate].
  - lia.
  - reflexivity.
Defined.

(** C1, refuted as stated.  With [minf = 6] on eight samples the band
    width is negative and the allocation raises; with stride 2 and
    [minf = 0] the band width 5 is not a multiple of the stride and the
    last loop step writes row 2 of a 2-row matrix.  Neither call returns
    a matrix. *)
Lemma floor_shape_counterexample :
  ~ returns_floor_shape (FL := dft_lib) default_transform time8 signal8 6 1
  /\ ~ returns_floor_shape (FL := dft_lib) default_transform time8 signal8 0 2.
Proof.
  split; intros (S & Hrun & _).
  - rewrite (fit_transform_negative_rows (FL := dft_lib) default_transform
               time8 signal8 values8 6 1 signal8_valid signal8_values
               values8_nonempty) in Hrun;
      [discriminate | lia | reflexivity].
  - rewrite (fit_transform_index_error (FL := dft_lib) default_transform
               time8 signal8 values8 0 2 signal8_valid signal8_values
               values8_nonempty) in Hrun;
      [discriminate | lia | lia | discriminate | left; discriminate].
Qed.

(** The rows written by the loop.  Whenever a matrix is returned for
    [minf >= 0] and a stride [fs >= 1], then for each step [k] from [fs]
    to [maxf - minf] in steps of [fs] (with [maxf = min(900, N // 2)])
    row [k // fs] is the inverse transform of the length-[N] slice of
    the doubled spectrum [concat(fft(signal), fft(signal))] that starts
    at index [minf + k + 1], multiplied by the window weight computed
    for the frequency index [minf + k]. *)
Theorem loop_row_is_weighted_inverse `{FL : FourierLib}
  (self : HSTransform) (time_values : list R) (sig : pyobj) (xs : list R)
  (minf fs : Z) (S : cmatrix) (k : Z) :
  let n := length xs in
  let doubled := fft (map RtoC xs) ++ fft (map RtoC xs) in
  let slice := firstn n (skipn (Z.to_nat (minf + k + 1)) doubled) in
  numeric_values (np_array sig) = Ok xs ->
  0 <= minf -> 1 <= fs ->
  fit_transform self time_values sig minf fs = Ok S ->
  fs <= k <= Z.min 900 (Z.of_nat n / 2) - minf ->
  k mod fs = 0 ->
  exists W,
    _compute_hyperbolic_gaussian self (Z.of_nat n) (minf + k) time_values
    = Ok W
    /\ length slice = n
    /\ nth_error (rows S) (Z.to_nat (k / fs))
       = Some (ifft (map (Cscale W) slice)).
Proof.
  intros n doubled slice Hxs Hminf Hfs Hrun Hk Hmult.
  destruct (fit_transform_dc_row _ _ _ _ _ _ Hrun)
    as (xs' & Hvalid & Hxs' & Hne & _).
  assert (xs' = xs) by congruence; subst xs'.
  destruct (fit_transform_returns self time_values sig xs minf fs
              Hvalid Hxs Hne S Hminf ltac:(lia) Hrun) as (HM & Hdiv & ->).
  set (M := Z.min 900 (Z.of_nat (length xs) / 2) - minf + 1) in *.
  assert (HMq : M = fs * (M / fs)).
  { rewrite (Z.div_mod M fs) at 1 by lia. rewrite Hdiv; ring. }
  assert (Hkq : k = fs * (k / fs)).
  { rewrite (Z.div_mod k fs) at 1 by lia. rewrite Hmult; ring. }
  assert (HkM : k <= M - 1) by (unfold M, n in *; lia).
  assert (Hj : 1 <= k / fs <= M / fs - 1).
  { clearbody M. revert HMq Hkq.
    generalize (k / fs) (M / fs); intros a b HMq Hkq; nia. }
  exists (window_weight_spec self (Z.of_nat n) (minf + k) time_values).
  split; [apply compute_hyperbolic_gaussian_eq |].
  destruct (window_inside xs minf k) as (_ & Hlen & _);
    [lia | lia | unfold M, n in *; lia |].
  split; [exact Hlen |].
  simpl rows.
  replace (Z.to_nat (k / fs)) with (Datatypes.S (Z.to_nat (k / fs - 1)))
    by lia.
  rewrite transform_rows_nth by lia.
  replace ((Z.of_nat (Z.to_nat (k / fs - 1)) + 1) * fs) with k
    by (rewrite Z2Nat.id by lia; rewrite Hkq at 1; ring).
  reflexivity.
Qed.

Lemma loop_row_is_weighted_inverse_witness :
  exists S,
    numeric_values (np_array signal8) = Ok values8
    /\ 0 <= 0 /\ 1 <= 1
    /\ fit_transform (FL := dft_lib) default_transform time8 signal8 0 1
       = Ok S
    /\ 1 <= 2 <= Z.min 900 (8 / 2) - 0
    /\ 2 mod 1 = 0
    /\ exists W,
        _compute_hyperbolic_gaussian default_transform 8 2 time8 = Ok W
        /\ nth_error (rows S) 2
           = Some (dft_inverse
                     (map (Cscale W)
                          (firstn 8 (skipn 3 (dft_forward (map RtoC values8)
                                              ++ dft_forward (map RtoC values8)))))).
Proof.
  eexists.
  split; [exact signal8_values |].
  split; [lia |].
  split; [lia |].
  split.
  { apply (fit_transform_divisible (FL := dft_lib) default_transform time8
             signal8 values8 0 1 signal8_valid signal8_values
             values8_nonempty); [lia | lia | discriminate | reflexivity]. }
  split; [split; [lia | discriminate] |].
  split; [reflexivity |].
  destruct (loop_row_is_weighted_inverse (FL := dft_lib) default_transform
              time8 signal8 values8 0 1 _ 2 signal8_values
              ltac:(lia) ltac:(lia)
              (fit_transform_divisible (FL := dft_lib) default_transform time8
                 signal8 values8 0 1 signal8_valid signal8_values
                 values8_nonempty ltac:(lia) ltac:(lia)
                 ltac:(discriminate) eq_refl)
              ltac:(split; [lia | discriminate]) eq_refl)
    as (W & HW & _ & Hrow).
  exists W; split; [exact HW | exact Hrow].
Defined.

(** ** The DC row *)

Lemma land_one_parity (j : nat) :
  Z.land 1 (1 + Z.of_nat j) = if Nat.even j then 1 else 0.
Proof.
  rewrite Z.land_comm.
  change 1 with (Z.ones 1) at 2.
  rewrite Z.land_ones by lia.
  change (2 ^ 1) with 2.
  destruct (Nat.even j) eqn:Hpar.
  - apply Nat.even_spec in Hpar as [m ->].
    rewrite Nat2Z.inj_mul; simpl Z.of_nat.
    replace (1 + 2 * Z.of_nat m) with (1 + Z.of_nat m * 2) by ring.
    rewrite Z.mod_add by lia; reflexivity.
  - assert (Hodd : Nat.odd j = true)
      by (unfold Nat.odd; rewrite Hpar; reflexivity).
    apply Nat.odd_spec in Hodd as [m ->].
    rewrite Nat2Z.inj_add, Nat2Z.inj_mul; simpl Z.of_nat.
    replace (1 + (2 * Z.of_nat m + 1)) with (0 + (Z.of_nat m + 1) * 2) by ring.
    rewrite Z.mod_add by lia; reflexivity.
Qed.

(** The mask [1 & [1..N]] is 1 at even 0-based columns and 0 at odd
    ones. *)
Lemma dc_mask_pattern (n : nat) :
  dc_mask (Z.of_nat n)
  = map (fun j => if Nat.even j then 1 else 0) (seq 0 n).
Proof.
  unfold dc_mask, np_arange.
  replace (Z.to_nat (Z.of_nat n + 1 - 1)) with n by lia.
  rewrite map_map; apply map_ext; intros j.
  apply land_one_parity.
Qed.

Lemma dc_row_pattern (xs : list R) :
  map RtoC (dc_row xs)
  = map (fun j => if Nat.even j then RtoC (np_mean xs) else C0)
        (seq 0 (length xs)).
Proof.
  unfold dc_row; rewrite dc_mask_pattern, !map_map.
  apply map_ext; intros j; unfold RtoC, C0.
  destruct (Nat.even j); f_equal; ring.
Qed.

Lemma values8_mean : np_mean values8 = 4.5%R.
Proof. unfold np_mean, values8; simpl; lra. Qed.

(** C2: row 0 of every returned matrix is the signal mean multiplied
    element by element by the integer vector [1 & [1..N]]; for the
    signal [1..8] with the default configuration, [minf = 0] and stride
    1 the matrix has shape (5, 8) and row 0 is 4.5 under that mask. *)
Theorem dc_row_is_masked_mean :
  (forall (FL : FourierLib) (self : HSTransform) (time_values : list R)
          (sig : pyobj) (xs : list R) (minf fs : Z) (S : cmatrix),
      numeric_values (np_array sig) = Ok xs ->
      fit_transform self time_values sig minf fs = Ok S ->
      nth_error (rows S) 0
      = Some (map (fun b => RtoC (np_mean xs * IZR b))
                  (map (Z.land 1)
                       (np_arange 1 (Z.of_nat (length xs) + 1)))))
  /\ (forall FL : FourierLib,
        exists S,
          fit_transform default_transform time8 signal8 0 1 = Ok S
          /\ nrows S = 5%nat /\ ncols S = 8%nat
          /\ nth_error (rows S) 0
             = Some (map RtoC [4.5; 0; 4.5; 0; 4.5; 0; 4.5; 0]%R)).
Proof.
  split.
  - intros FL self time_values sig xs minf fs S Hxs Hrun.
    destruct (fit_transform_dc_row _ _ _ _ _ _ Hrun)
      as (xs' & _ & Hxs' & _ & _ & Hrow).
    assert (xs' = xs) by congruence; subst xs'.
    rewrite Hrow; unfold dc_row, dc_mask.
    rewrite !map_map; reflexivity.
  - intros FL; eexists; split.
    + apply (fit_transform_divisible default_transform time8 signal8 values8
               0 1 signal8_valid signal8_values values8_nonempty);
        [lia | lia | discriminate | reflexivity].
    + split; [reflexivity | split; [reflexivity |]].
      simpl rows; unfold transform_rows.
      simpl nth_error; f_equal.
      rewrite values8_mean.
      replace (4.5 * 1)%R with 4.5%R by lra.
      replace (4.5 * 0)%R with 0%R by lra.
      reflexivity.
Qed.

Lemma dc_row_is_masked_mean_witness :
  exists S,
    numeric_values (np_array signal8) = Ok values8
    /\ fit_transform (FL := dft_lib) default_transform time8 signal8 0 1 = Ok S
    /\ nth_error (rows S) 0
       = Some (map (fun b => RtoC (np_mean values8 * IZR b))
                   (map (Z.land 1) (np_arange 1 (8 + 1)))).
Proof.
  destruct dc_row_is_masked_mean as [Hgeneral _].
  eexists.
  split; [exact signal8_values |].
  assert (Hrun := fit_transform_divisible (FL := dft_lib) default_transform
                    time8 signal8 values8 0 1 signal8_valid signal8_values
                    values8_nonempty ltac:(lia) ltac:(lia)
                    ltac:(discriminate) eq_refl).
  split; [exact Hrun |].
  exact (Hgeneral dft_lib default_transform time8 signal8 values8 0 1 _
           signal8_values Hrun).
Defined.

(** ** Strides that do not divide the band *)

(** When both the stride-1 and the stride-2 call return, the second has
    half the rows, and its row [i] is row [2·i] of the first. *)
Lemma stride_two_rows `{FL : FourierLib}
  (self : HSTransform) (time_values : list R) (sig : pyobj) (minf : Z)
  (S1 S2 : cmatrix) :
  0 <= minf ->
  fit_transform self time_values sig minf 1 = Ok S1 ->
  fit_transform self time_values sig minf 2 = Ok S2 ->
  nrows S1 = (2 * nrows S2)%nat
  /\ forall i, (i < nrows S2)%nat ->
               nth_error (rows S2) i = nth_error (rows S1) (2 * i).
Proof.
  intros Hminf Hrun1 Hrun2.
  destruct (fit_transform_dc_row _ _ _ _ _ _ Hrun1)
    as (xs & Hvalid & Hxs & Hne & _).
  destruct (fit_transform_returns self time_values sig xs minf 1
              Hvalid Hxs Hne S1 Hminf ltac:(lia) Hrun1) as (HM & _ & ->).
  destruct (fit_transform_returns self time_values sig xs minf 2
              Hvalid Hxs Hne S2 Hminf ltac:(lia) Hrun2) as (_ & Heven & ->).
  set (M := Z.min 900 (Z.of_nat (length xs) / 2) - minf + 1) in *.
  clearbody M.
  unfold nrows; simpl rows; rewrite !transform_rows_length.
  rewrite Z.div_1_r.
  assert (HMq : M = 2 * (M / 2)).
  { rewrite (Z.div_mod M 2) at 1 by lia. rewrite Heven; ring. }
  split; [lia |].
  intros [| i] Hi.
  - reflexivity.
  - replace (2 * Datatypes.S i)%nat with (Datatypes.S (2 * i + 1)) by lia.
    rewrite !transform_rows_nth by lia.
    do 2 f_equal; lia.
Qed.

(** The ceiling and the floor of band width over stride differ exactly
    when the stride does not divide the band width; there the call
    raises instead of returning. *)
Lemma uneven_stride_raises `{FL : FourierLib}
  (self : HSTransform) (time_values : list R) (sig : pyobj) (minf fs : Z) :
  let n := np_len (np_array sig) in
  _input_validation sig = Ok tt ->
  (1 <= n)%nat ->
  0 <= minf <= Z.min 900 (Z.of_nat n / 2) ->
  1 <= fs ->
  band_width n minf mod fs <> 0 ->
  ceil_div (band_width n minf) fs = band_width n minf / fs + 1
  /\ fit_transform self time_values sig minf fs
     = Raise (IndexError "index is out of bounds for axis 0").
Proof.
  intros n Hvalid Hlen Hminf Hfs Hrem.
  destruct (validation_numeric sig Hvalid) as (xs & Hxs & Hn).
  replace n with (length xs) in * by exact Hn.
  assert (Hne : xs <> []) by (destruct xs; [simpl in Hlen; lia | discriminate]).
  unfold band_width in *.
  split.
  - set (M := Z.min 900 (Z.of_nat (length xs) / 2) - minf + 1) in *.
    clearbody M; unfold ceil_div.
    pose proof (Z.mod_pos_bound M fs ltac:(lia)) as Hbound.
    pose proof (Z.div_mod M fs ltac:(lia)) as HMq.
    assert (Hneg : - M / fs = - (M / fs + 1)); [| lia].
    symmetry.
    apply (Z.div_unique_pos (- M) fs (- (M / fs + 1)) (fs - M mod fs)); lia.
  - apply (fit_transform_index_error self time_values sig xs minf fs
             Hvalid Hxs Hne); [lia | lia | lia | left; exact Hrem].
Qed.

(** C5, at the input where the code departs from it: on the eight-sample
    scenario with stride 2 the band width is 5, the ceiling of 5/2 is 3,
    the allocation takes the floor 2, and the call raises [IndexError]
    when the loop writes row 2; no matrix of 3 rows is returned. *)
Theorem ceiling_shape_not_returned (FL : FourierLib) :
  band_width 8 0 = 5
  /\ ceil_div (band_width 8 0) 2 = 3
  /\ band_width 8 0 / 2 = 2
  /\ fit_transform default_transform time8 signal8 0 2
     = Raise (IndexError "index is out of bounds for axis 0").
Proof.
  split; [reflexivity |].
  split; [reflexivity |].
  split; [reflexivity |].
  apply (fit_transform_index_error default_transform time8 signal8 values8
           0 2 signal8_valid signal8_values values8_nonempty);
    [lia | lia | discriminate | left; discriminate].
Qed.

(** C3, at the input where the code departs from it: on the eight-sample
    scenario with [minf = 0] and stride 2 the loop steps are [k = 2] and
    [k = 4]; both lie in the range the claim speaks of (from the stride
    to [maxf - minf = 4] in steps of the stride), yet the call raises
    [IndexError] when step 4 writes row 2 of the 2 allocated rows, so no
    matrix is returned whose rows 1 and 2 could hold the two weighted
    inverse transforms. *)
Theorem loop_rows_not_returned (FL : FourierLib) :
  py_range 2 (Z.min 900 (8 / 2) - 0 + 1) 2 = Ok [2; 4]
  /\ (forall k, In k [2; 4] ->
                2 <= k <= Z.min 900 (8 / 2) - 0 /\ k mod 2 = 0)
  /\ np_zeros ((Z.min 900 (8 / 2) - 0 + 1) / 2) 8
     = Ok {| ncols := 8; rows := repeat (repeat C0 8) 2 |}
  /\ 4 / 2 = 2
  /\ fit_transform default_transform time8 signal8 0 2
     = Raise (IndexError "index is out of bounds for axis 0").
Proof.
  split; [reflexivity |].
  split.
  { intros k [<- | [<- | []]]; split; try reflexivity; split; discriminate. }
  split; [reflexivity |].
  split; [reflexivity |].
  apply (fit_transform_index_error default_transform time8 signal8 values8
           0 2 signal8_valid signal8_values values8_nonempty);
    [lia | lia | discriminate | left; discriminate].
Qed.

(** C6, at the input where the code departs from it: on the eight-sample
    scenario the stride-1 call returns 5 rows, while the stride-2 call
    raises [IndexError]; there are no retained rows to compare. *)
Theorem stride_two_not_returned (FL : FourierLib) :
  (exists S1,
      fit_transform default_transform time8 signal8 0 1 = Ok S1
      /\ nrows S1 = 5%nat)
  /\ fit_transform default_transform time8 signal8 0 2
     = Raise (IndexError "index is out of bounds for axis 0").
Proof.
  split.
  - eexists; split.
    + apply (fit_transform_divisible default_transform time8 signal8 values8
               0 1 signal8_valid signal8_values values8_nonempty);
        [lia | lia | discriminate | reflexivity].
    + reflexivity.
  - apply (fit_transform_index_error default_transform time8 signal8 values8
             0 2 signal8_valid signal8_values values8_nonempty);
      [lia | lia | discriminate | left; discriminate].
Qed.

(* ================================================================== *)
(** * Further properties of the three methods *)

(** ** [_input_validation] *)


(** A non-empty list made of Python booleans only is a boolean array,
    so the whole call ends in that [ValueError]. *)
Theorem bool_list_rejected `{FL : FourierLib}
  (self : HSTransform) (time_values : list R) (b : bool) (bs : list bool)
  (minf fs : Z) :
  fit_transform self time_values (PyList (map EBool (b :: bs))) minf fs
  = Raise (ValueError msg_non_numeric).
Proof.
  unfold fit_transform.
  assert (Hval : _input_validation (PyList (map EBool (b :: bs)))
                 = Raise (ValueError msg_non_numeric)).
  { assert (Harr : np_array (PyList (map EBool (b :: bs)))
                   = ArrBool (b :: bs)).
    { simpl np_array; unfold np_array_of_list.
      assert (Hk : forall (p : pyelem -> bool) l,
                 (forall b, p (EBool b) = false) ->
                 existsb p (map EBool l) = false).
      { intros p l Hp; induction l as [| b' l IH]; simpl;
          [reflexivity | rewrite Hp, IH; reflexivity]. }
      rewrite (Hk is_big_int), (Hk is_str), (Hk is_float), (Hk is_int64),
        (Hk is_uint64) by reflexivity.
      simpl; rewrite map_map; simpl.
      rewrite map_id; reflexivity. }
    unfold _input_validation; rewrite Harr; reflexivity. }
  rewrite Hval; reflexivity.
Qed.

(** ** Edge cases of [fit_transform] *)

Lemma fit_transform_no_values `{FL : FourierLib}
  (self : HSTransform) (time_values : list R) (sig : pyobj) (minf fs : Z) :
  _input_validation sig = Ok tt ->
  numeric_values (np_array sig) = Ok [] ->
  fit_transform self time_values sig minf fs
  = Raise (ValueError msg_no_points).
Proof.
  intros Hvalid Hxs.
  unfold fit_transform; rewrite Hvalid, Hxs; reflexivity.
Qed.

(** An empty signal passes validation and is stopped by the forward
    transform. *)
Theorem empty_signal_rejected_by_fft `{FL : FourierLib}
  (self : HSTransform) (time_values : list R) (sig : pyobj) (minf fs : Z) :
  _input_validation sig = Ok tt ->
  np_len (np_array sig) = 0%nat ->
  fit_transform self time_values sig minf fs
  = Raise (ValueError msg_no_points).
Proof.
  intros Hvalid Hlen.
  destruct (validation_numeric sig Hvalid) as (xs & Hxs & Hn).
  rewrite Hlen in Hn; destruct xs; [| discriminate Hn].
  apply fit_transform_no_values; assumption.
Qed.

Lemma empty_signal_rejected_by_fft_witness :
  _input_validation (PyList []) = Ok tt
  /\ np_len (np_array (PyList [])) = 0%nat
  /\ fit_transform (FL := dft_lib) default_transform [] (PyList []) 0 1
     = Raise (ValueError msg_no_points).
Proof.
  split; [reflexivity | split; [reflexivity |]].
  apply (empty_signal_rejected_by_fft (FL := dft_lib)); reflexivity.
Defined.

(** A stride of zero passes validation and the forward transform and
    fails in the floor division of line 126. *)
Theorem zero_stride_raises `{FL : FourierLib}
  (self : HSTransform) (time_values : list R) (sig : pyobj) (minf : Z) :
  _input_validation sig = Ok tt ->
  (1 <= np_len (np_array sig))%nat ->
  exists msg,
    fit_transform self time_values sig minf 0 = Raise (ZeroDivisionError msg).
Proof.
  intros Hvalid Hlen.
  destruct (validation_numeric sig Hvalid) as (xs & Hxs & Hn).
  assert (Hne : xs <> [])
    by (destruct xs; [simpl in Hn; lia | discriminate]).
  eexists.
  rewrite (fit_transform_after_fft self time_values sig xs minf 0
             Hvalid Hxs Hne).
  reflexivity.
Qed.

Lemma zero_stride_raises_witness :
  _input_validation signal8 = Ok tt
  /\ (1 <= np_len (np_array signal8))%nat
  /\ exists msg,
      fit_transform (FL := dft_lib) default_transform time8 signal8 0 0
      = Raise (ZeroDivisionError msg).
Proof.
  split; [reflexivity | split; [simpl; lia |]].
  apply (zero_stride_raises (FL := dft_lib)); [reflexivity | simpl; lia].
Defined.

(** ** When [fit_transform] returns *)

Section Outcome.

Context `{FL : FourierLib}.

Variables (self : HSTransform) (time_values : list R) (sig : pyobj).
Variables (minf fs : Z).

Local Abbreviation n := (np_len (np_array sig)).

(** For a valid non-empty signal, [minf >= 0] and a positive stride, a
    matrix is returned exactly when the band is not empty and the stride
    divides its width. *)
Theorem returns_iff_stride_divides_band :
  _input_validation sig = Ok tt ->
  (1 <= n)%nat ->
  0 <= minf -> 1 <= fs ->
  (exists S, fit_transform self time_values sig minf fs = Ok S)
  <-> 1 <= band_width n minf /\ band_width n minf mod fs = 0.
Proof.
  intros Hvalid Hlen Hminf Hfs.
  destruct (validation_numeric sig Hvalid) as (xs & Hxs & Hn).
  rewrite <- Hn in *.
  assert (Hne : xs <> [])
    by (destruct xs; [simpl in Hlen; lia | discriminate]).
  unfold band_width; split.
  - intros (S & Hrun).
    destruct (fit_transform_returns self time_values sig xs minf fs
                Hvalid Hxs Hne S Hminf ltac:(lia) Hrun) as (HM & Hdiv & _).
    split; assumption.
  - intros (HM & Hdiv); eexists.
    apply (fit_transform_divisible self time_values sig xs minf fs
             Hvalid Hxs Hne); [lia | lia | exact HM | exact Hdiv].
Qed.

(** A minimum frequency above [min(900, N // 2)] never yields a matrix:
    one past the band the write of row 0 fails, further out the
    allocation itself does. *)
Theorem minf_beyond_band_raises :
  _input_validation sig = Ok tt ->
  (1 <= n)%nat ->
  1 <= fs ->
  Z.min 900 (Z.of_nat n / 2) < minf ->
  fit_transform self time_values sig minf fs
  = if minf =? Z.min 900 (Z.of_nat n / 2) + 1
    then Raise (IndexError "index is out of bounds for axis 0")
    else Raise (ValueError "negative dimensions are not allowed").
Proof.
  intros Hvalid Hlen Hfs Hbeyond.
  destruct (validation_numeric sig Hvalid) as (xs & Hxs & Hn).
  rewrite <- Hn in *.
  assert (Hne : xs <> [])
    by (destruct xs; [simpl in Hlen; lia | discriminate]).
  assert (Hmaxf : 0 <= Z.min 900 (Z.of_nat (length xs) / 2)).
  { apply Z.min_glb; [lia | apply Z.div_pos; lia]. }
  destruct (Z.eqb_spec minf (Z.min 900 (Z.of_nat (length xs) / 2) + 1))
    as [Hone | Hmore].
  - apply (fit_transform_index_error self time_values sig xs minf fs
             Hvalid Hxs Hne); [lia | lia | lia | right; lia].
  - apply (fit_transform_negative_rows self time_values sig xs minf fs
             Hvalid Hxs Hne); lia.
Qed.

(** A returned matrix has as many columns as the signal has samples and
    between 1 and 901 rows, never more than [N // 2 + 1]. *)
Theorem returned_shape_bounds (S : cmatrix) :
  0 <= minf -> 1 <= fs ->
  fit_transform self time_values sig minf fs = Ok S ->
  ncols S = n
  /\ (1 <= nrows S <= 901)%nat
  /\ Z.of_nat (nrows S) <= Z.of_nat n / 2 + 1.
Proof.
  intros Hminf Hfs Hrun.
  destruct (fit_transform_dc_row _ _ _ _ _ _ Hrun)
    as (xs & Hvalid & Hxs & Hne & Hcols & _).
  pose proof (numeric_values_length _ _ Hxs) as Hn.
  destruct (fit_transform_returns self time_values sig xs minf fs
              Hvalid Hxs Hne S Hminf ltac:(lia) Hrun) as (HM & Hdiv & ->).
  rewrite <- Hn.
  unfold nrows; simpl; rewrite length_map, length_seq.
  set (M := Z.min 900 (Z.of_nat (length xs) / 2) - minf + 1) in *.
  assert (HM901 : M <= 901 /\ M <= Z.of_nat (length xs) / 2 + 1)
    by (unfold M; lia).
  assert (Hq : 1 <= M / fs <= M).
  { clearbody M.
    assert (HMq : M = fs * (M / fs)).
    { rewrite (Z.div_mod M fs) at 1 by lia. rewrite Hdiv; ring. }
    revert HMq; generalize (M / fs); intros q HMq; nia. }
  split; [reflexivity | lia].
Qed.

End Outcome.

Lemma returns_iff_stride_divides_band_witness :
  _input_validation signal8 = Ok tt
  /\ (1 <= np_len (np_array signal8))%nat
  /\ 0 <= 1 /\ 1 <= 2
  /\ ((exists S,
          fit_transform (FL := dft_lib) default_transform time8 signal8 1 2
          = Ok S)
      <-> 1 <= band_width (np_len (np_array signal8)) 1
          /\ band_width (np_len (np_array signal8)) 1 mod 2 = 0).
Proof.
  split; [reflexivity |].
  split; [simpl; lia |].
  split; [lia |].
  split; [lia |].
  apply (returns_iff_stride_divides_band (FL := dft_lib));
    [reflexivity | simpl; lia | lia | lia].
Defined.

Lemma minf_beyond_band_raises_witness :
  _input_validation signal8 = Ok tt
  /\ (1 <= np_len (np_array signal8))%nat
  /\ 1 <= 1
  /\ Z.min 900 (Z.of_nat (np_len (np_array signal8)) / 2) < 5
  /\ fit_transform (FL := dft_lib) default_transform time8 signal8 5 1
     = Raise (IndexError "index is out of bounds for axis 0").
Proof.
  split; [reflexivity |].
  split; [simpl; lia |].
  split; [lia |].
  split; [reflexivity |].
  apply (minf_beyond_band_raises (FL := dft_lib) default_transform time8
           signal8 5 1); [reflexivity | simpl; lia | lia | reflexivity].
Defined.

Lemma returned_shape_bounds_witness :
  exists S,
    0 <= 0 /\ 1 <= 1
    /\ fit_transform (FL := dft_lib) default_transform time8 signal8 0 1
       = Ok S
    /\ ncols S = np_len (np_array signal8)
    /\ (1 <= nrows S <= 901)%nat
    /\ Z.of_nat (nrows S) <= Z.of_nat (np_len (np_array signal8)) / 2 + 1.
Proof.
  eexists.
  split; [lia |].
  split; [lia |].
  assert (Hrun := fit_transform_divisible (FL := dft_lib) default_transform
                    time8 signal8 values8 0 1 signal8_valid signal8_values
                    values8_nonempty ltac:(lia) ltac:(lia)
                    ltac:(discriminate) eq_refl).
  split; [exact Hrun |].
  exact (returned_shape_bounds (FL := dft_lib) default_transform time8
           signal8 0 1 _ ltac:(lia) ltac:(lia) Hrun).
Defined.

(** With the default [minf = 0] and stride 1 every valid non-empty
    signal is transformed: the matrix has [min(900, N // 2) + 1] rows
    and [N] columns. *)
Theorem default_call_returns `{FL : FourierLib}
  (self : HSTransform) (time_values : list R) (sig : pyobj) :
  _input_validation sig = Ok tt ->
  (1 <= np_len (np_array sig))%nat ->
  exists S,
    fit_transform self time_values sig 0 1 = Ok S
    /\ Z.of_nat (nrows S)
       = Z.min 900 (Z.of_nat (np_len (np_array sig)) / 2) + 1
    /\ ncols S = np_len (np_array sig).
Proof.
  intros Hvalid Hlen.
  destruct (validation_numeric sig Hvalid) as (xs & Hxs & Hn).
  rewrite <- Hn in *.
  assert (Hne : xs <> [])
    by (destruct xs; [simpl in Hlen; lia | discriminate]).
  assert (Hmaxf : 0 <= Z.min 900 (Z.of_nat (length xs) / 2)).
  { apply Z.min_glb; [lia | apply Z.div_pos; lia]. }
  eexists; split.
  - apply (fit_transform_divisible self time_values sig xs 0 1
             Hvalid Hxs Hne); [lia | lia | lia | apply Z.mod_1_r].
  - unfold nrows; simpl; rewrite length_map, length_seq.
    rewrite Z.div_1_r; split; [lia | reflexivity].
Qed.

Lemma default_call_returns_witness :
  _input_validation signal8 = Ok tt
  /\ (1 <= np_len (np_array signal8))%nat
  /\ exists S,
      fit_transform (FL := dft_lib) default_transform time8 signal8 0 1
      = Ok S
      /\ Z.of_nat (nrows S) = 5 /\ ncols S = 8%nat.
Proof.
  split; [reflexivity | split; [simpl; lia |]].
  apply (default_call_returns (FL := dft_lib) default_transform time8
           signal8); [reflexivity | simpl; lia].
Defined.

(** A one-sample signal comes back as the 1 x 1 matrix holding that
    sample: the band is just the DC row and the mask of one column
    is 1. *)
Theorem single_sample_transform `{FL : FourierLib}
  (self : HSTransform) (time_values : list R) (sig : pyobj) (x : R) :
  _input_validation sig = Ok tt ->
  numeric_values (np_array sig) = Ok [x] ->
  fit_transform self time_values sig 0 1
  = Ok {| ncols := 1; rows := [[RtoC x]] |}.
Proof.
  intros Hvalid Hxs.
  rewrite (fit_transform_divisible self time_values sig [x] 0 1
             Hvalid Hxs ltac:(discriminate));
    [| lia | lia | simpl; lia | reflexivity].
  simpl. unfold transform_rows, dc_row, np_mean; simpl.
  do 4 f_equal. unfold RtoC; f_equal; field.
Qed.

Lemma single_sample_transform_witness :
  _input_validation (PyList [EFloat (Finite 2.5%R)]) = Ok tt
  /\ numeric_values (np_array (PyList [EFloat (Finite 2.5%R)])) = Ok [2.5%R]
  /\ fit_transform (FL := dft_lib) default_transform [0%R]
       (PyList [EFloat (Finite 2.5%R)]) 0 1
     = Ok {| ncols := 1; rows := [[RtoC 2.5%R]] |}.
Proof.
  split; [reflexivity | split; [reflexivity |]].
  apply (single_sample_transform (FL := dft_lib)); reflexivity.
Defined.

Lemma uneven_stride_raises_witness :
  _input_validation signal8 = Ok tt
  /\ (1 <= np_len (np_array signal8))%nat
  /\ 0 <= 0 <= Z.min 900 (Z.of_nat (np_len (np_array signal8)) / 2)
  /\ 1 <= 3
  /\ band_width (np_len (np_array signal8)) 0 mod 3 <> 0
  /\ ceil_div (band_width (np_len (np_array signal8)) 0) 3
     = band_width (np_len (np_array signal8)) 0 / 3 + 1
  /\ fit_transform (FL := dft_lib) default_transform time8 signal8 0 3
     = Raise (IndexError "index is out of bounds for axis 0").
Proof.
  split; [reflexivity |].
  split; [simpl; lia |].
  split; [split; [lia | discriminate] |].
  split; [lia |].
  split; [discriminate |].
  apply (uneven_stride_raises (FL := dft_lib) default_transform time8
           signal8 0 3);
    [reflexivity | simpl; lia | split; [lia | discriminate] | lia
     | discriminate].
Defined.

Lemma stride_two_rows_witness :
  exists S1 S2,
    0 <= 1
    /\ fit_transform (FL := dft_lib) default_transform time8 signal8 1 1
       = Ok S1
    /\ fit_transform (FL := dft_lib) default_transform time8 signal8 1 2
       = Ok S2
    /\ nrows S1 = 4%nat /\ nrows S2 = 2%nat
    /\ nth_error (rows S2) 1 = nth_error (rows S1) 2.
Proof.
  assert (Hrun1 := fit_transform_divisible (FL := dft_lib) default_transform
                     time8 signal8 values8 1 1 signal8_valid signal8_values
                     values8_nonempty ltac:(lia) ltac:(lia)
                     ltac:(discriminate) eq_refl).
  assert (Hrun2 := fit_transform_divisible (FL := dft_lib) default_transform
                     time8 signal8 values8 1 2 signal8_valid signal8_values
                     values8_nonempty ltac:(lia) ltac:(lia)
                     ltac:(discriminate) eq_refl).
  do 2 eexists.
  split; [lia |].
  split; [exact Hrun1 |].
  split; [exact Hrun2 |].
  split; [reflexivity |].
  split; [reflexivity |].
  apply (proj2 (stride_two_rows (FL := dft_lib) default_transform time8
                  signal8 1 _ _ ltac:(lia) Hrun1 Hrun2) 1%nat).
  unfold nrows; simpl rows; rewrite transform_rows_length.
  simpl; lia.
Defined.

Lemma nan_in_numeric_signal_rejected_witness :
  isinstance_valid_types (PySeries (ArrFloat [Finite 1%R; NaN])) = true
  /\ np_array (PySeries (ArrFloat [Finite 1%R; NaN]))
     = ArrFloat [Finite 1%R; NaN]
  /\ In NaN [Finite 1%R; NaN]
  /\ fit_transform (FL := dft_lib) default_transform [0%R; 1%R]
       (PySeries (ArrFloat [Finite 1%R; NaN])) 0 1
     = Raise (ValueError msg_null).
Proof.
  split; [reflexivity | split; [reflexivity |]].
  split; [right; left; reflexivity |].
  apply (nan_in_numeric_signal_rejected (FL := dft_lib) default_transform
           [0%R; 1%R] (PySeries (ArrFloat [Finite 1%R; NaN]))
           [Finite 1%R; NaN]);
    [reflexivity | reflexivity | right; left; reflexivity].
Defined.

Lemma nan_in_number_list_rejected_witness :
  existsb is_big_int [EInt 1; EFloat NaN; EBool true] = false
  /\ existsb is_str [EInt 1; EFloat NaN; EBool true] = false
  /\ In (EFloat NaN) [EInt 1; EFloat NaN; EBool true]
  /\ fit_transform (FL := dft_lib) default_transform [0%R]
       (PyList [EInt 1; EFloat NaN; EBool true]) 0 1
     = Raise (ValueError msg_null).
Proof.
  split; [reflexivity |].
  split; [reflexivity |].
  split; [right; left; reflexivity |].
  apply (nan_in_number_list_rejected (FL := dft_lib));
    [reflexivity | reflexivity | right; left; reflexivity].
Defined.

(** ** What validation lets through *)

(** Validation accepts every int64 array, every uint64 array and every
    float64 array without a NaN, whether the signal is given as the
    array, as a series holding it, or as a list that converts to it. *)
Lemma numeric_signal_accepted (sig : pyobj) :
  isinstance_valid_types sig = true ->
  (exists l, np_array sig = ArrInt l)
  \/ (exists l, np_array sig = ArrUInt l)
  \/ (exists l, np_array sig = ArrFloat l
                 /\ existsb float_is_nan l = false) ->
  _input_validation sig = Ok tt.
Proof.
  intros Hty Harr; unfold _input_validation; rewrite Hty; simpl negb.
  destruct Harr as [[l ->] | [[l ->] | [l [-> Hnan]]]]; simpl;
    [reflexivity | reflexivity | rewrite Hnan; reflexivity].
Qed.

Lemma numeric_signal_accepted_witness :
  isinstance_valid_types (PyList [EInt 1; EFloat (Finite 2.5%R); EBool true])
  = true
  /\ np_array (PyList [EInt 1; EFloat (Finite 2.5%R); EBool true])
     = ArrFloat [Finite 1%R; Finite 2.5%R; Finite 1%R]
  /\ _input_validation (PyList [EInt 1; EFloat (Finite 2.5%R); EBool true])
     = Ok tt.
Proof.
  split; [reflexivity | split; [reflexivity |]].
  apply numeric_signal_accepted; [reflexivity |].
  right; right; eexists; split; reflexivity.
Defined.

(** A boolean array passes the null check, is not of a number dtype,
    and ends validation in the [ValueError] of line 53, whether it is
    given as the array, as a series or as a list of booleans. *)
Lemma bool_array_rejected_as_non_numeric (sig : pyobj) (l : list bool) :
  isinstance_valid_types sig = true ->
  np_array sig = ArrBool l ->
  _input_validation sig = Raise (ValueError msg_non_numeric).
Proof.
  intros Hty Harr; unfold _input_validation.
  rewrite Hty, Harr; reflexivity.
Qed.

Lemma bool_array_rejected_as_non_numeric_witness :
  isinstance_valid_types (PySeries (ArrBool [true; false])) = true
  /\ _input_validation (PySeries (ArrBool [true; false]))
     = Raise (ValueError msg_non_numeric).
Proof.
  split; [reflexivity |].
  apply (bool_array_rejected_as_non_numeric _ [true; false]); reflexivity.
Defined.

(** ** The time axis and the element type *)

(** The time axis only feeds the window weight: whatever two time axes
    are passed (of any lengths), the two calls raise the same exception
    or return matrices of the same shape. *)
Theorem time_axis_never_decides `{FL : FourierLib}
  (self : HSTransform) (t1 t2 : list R) (sig : pyobj) (minf fs : Z) :
  0 <= minf -> 1 <= fs ->
  same_outcome (fit_transform self t1 sig minf fs)
               (fit_transform self t2 sig minf fs).
Proof.
  intros Hminf Hfs.
  destruct (_input_validation sig) as [[] | e] eqn:Hvalid.
  2:{ unfold fit_transform; rewrite Hvalid; simpl; reflexivity. }
  destruct (validation_numeric sig Hvalid) as (xs & Hxs & Hn).
  destruct xs as [| x xs].
  { rewrite !fit_transform_no_values by assumption.
    reflexivity. }
  assert (Hne : x :: xs <> []) by discriminate.
  set (M := Z.min 900 (Z.of_nat (length (x :: xs)) / 2) - minf + 1).
  destruct (Z.lt_ge_cases M 0) as [Hneg | Hnn].
  { rewrite !(fit_transform_negative_rows self _ sig (x :: xs) minf fs
                Hvalid Hxs Hne) by (fold M; lia).
    reflexivity. }
  destruct (Z.eq_dec (M mod fs) 0) as [Hdiv | Hndiv];
    [destruct (Z.eq_dec M 0) as [H0 | Hn0] |].
  - rewrite !(fit_transform_index_error self _ sig (x :: xs) minf fs
                Hvalid Hxs Hne) by (fold M; auto; lia).
    reflexivity.
  - rewrite !(fit_transform_divisible self _ sig (x :: xs) minf fs
                Hvalid Hxs Hne) by (fold M; auto; lia).
    unfold same_outcome, nrows; simpl ncols; simpl rows.
    rewrite !transform_rows_length; split; reflexivity.
  - rewrite !(fit_transform_index_error self _ sig (x :: xs) minf fs
                Hvalid Hxs Hne) by (fold M; auto; lia).
    reflexivity.
Qed.

Lemma time_axis_never_decides_witness :
  0 <= 0 /\ 1 <= 1
  /\ same_outcome
       (fit_transform (FL := dft_lib) default_transform time8 signal8 0 1)
       (fit_transform (FL := dft_lib) default_transform [] signal8 0 1).
Proof.
  split; [lia | split; [lia |]].
  apply (time_axis_never_decides (FL := dft_lib)); lia.
Defined.







(* ================================================================== *)
(** * The float64 embedding

    The same three methods, with every number the IEEE-754 binary64
    value NumPy computes with: infinities, NaN, signed zeros, rounding,
    overflow, and the wrap-around of int64 arrays.  Only the exponential
    and the two Fourier transforms are left to interfaces; the sums
    follow NumPy's pairwise summation. *)

Module F64.

Import Stdlib.Floats.Floats.

Local Open Scope float_scope.

(** ** Numbers *)

(** A Python or NumPy integer converted to float64, rounded to nearest
    even. *)
Definition f64_of_Z (z : Z) : float :=
  SF2Prim (binary_normalize prec emax z 0%Z false).

(** The value an int64 operation leaves: the result modulo 2^64. *)
Definition wrap64 (z : Z) : Z := ((z + 2 ^ 63) mod 2 ^ 64 - 2 ^ 63)%Z.

(** A Python int as the scalar operand of a float64 array operation
    (the divisor [2 * n**2] of line 80): it is converted to float64, and
    the conversion raises once the rounded value would be infinite.
    The theorems below use it on int64 values only. *)
Definition py_int_to_float (z : Z) : result float :=
  if (Z.abs z <? 2 ^ 1024 - 2 ^ 970)%Z then Ok (f64_of_Z z)
  else Raise (OverflowError "int too large to convert to float").

(** [np.pi] *)
Definition np_pi : float := 0x1.921fb54442d18p+1.

(** ** The library interfaces *)

(** The exponential of [np.exp], with the three values every
    implementation fixes. *)
Class Libm : Type := {
  libm_exp : float -> float;
  exp_zero : libm_exp 0 = 1;
  exp_neg_zero : libm_exp (-0) = 1;
  exp_nan : libm_exp nan = nan
}.

Definition C : Type := (float * float)%type.

Definition C0 : C := (0, 0).
Definition RtoC (x : float) : C := (x, 0).
Definition Cadd (a b : C) : C := (fst a + fst b, snd a + snd b).
Definition Cmul (a b : C) : C :=
  (fst a * fst b - snd a * snd b, fst a * snd b + snd a * fst b).
(** A complex128 array entry times a float64 scalar: the scalar is
    promoted to [w + 0j] and the complex product is taken. *)
Definition Cscale (w : float) (a : C) : C := Cmul a (w, 0).
Definition Csum (l : list C) : C := fold_left Cadd l C0.

(** [scipy.fft.fft] and [scipy.fft.ifft] on a non-empty one-dimensional
    array. *)
Class FourierLib : Type := {
  fft : list C -> list C;
  ifft : list C -> list C;
  fft_length : forall x, length (fft x) = length x;
  ifft_length : forall x, length (ifft x) = length x
}.

Definition scipy_fft `{FourierLib} (x : list C) : result (list C) :=
  match x with
  | [] => Raise (ValueError msg_no_points)
  | _ => Ok (fft x)
  end.

Definition scipy_ifft `{FourierLib} (x : list C) : result (list C) :=
  match x with
  | [] => Raise (ValueError msg_no_points)
  | _ => Ok (ifft x)
  end.

(** ** Sums *)

Definition sum_into (acc : float) (l : list float) : float :=
  fold_left add l acc.

(** The eight running sums of NumPy's unrolled loop, one more block of
    eight added per step. *)
Fixpoint add_blocks (r l : list float) (blocks : nat) : list float :=
  match blocks with
  | O => r
  | S b => add_blocks (zip_with add r (firstn 8 l)) (skipn 8 l) b
  end.

(** A block of 8 to 128 numbers: eight running sums, combined in pairs,
    then the numbers left over. *)
Definition sum_unrolled (l : list float) : float :=
  let blocks := (length l / 8)%nat in
  let res :=
    match add_blocks (firstn 8 l) (skipn 8 l) (blocks - 1) with
    | [r0; r1; r2; r3; r4; r5; r6; r7] =>
        ((r0 + r1) + (r2 + r3)) + ((r4 + r5) + (r6 + r7))
    | _ => 0
    end in
  sum_into res (skipn (8 * blocks) l).

(** NumPy's pairwise summation of a contiguous float64 buffer: fewer
    than 8 numbers are added in order (starting from -0, which keeps the
    sign of an all-negative-zero sum), up to 128 go through the unrolled
    loop, more are halved at a multiple of 8. *)
Fixpoint pairwise_sum (fuel : nat) (l : list float) : float :=
  let n := length l in
  if (n <? 8)%nat then sum_into (-0) l
  else if (n <=? 128)%nat then sum_unrolled l
  else
    match fuel with
    | O => sum_unrolled l
    | S fuel' =>
        let n2 := (n / 2 - (n / 2) mod 8)%nat in
        pairwise_sum fuel' (firstn n2 l) + pairwise_sum fuel' (skipn n2 l)
    end.

(** [np.add.reduce] of a float64 buffer: the empty sum is 0. *)
Definition add_reduce (l : list float) : float :=
  match l with
  | [] => 0
  | _ => -0 + pairwise_sum (length l) l
  end.

Fixpoint chunks {A : Type} (fuel size : nat) (l : list A) : list (list A) :=
  match fuel, l with
  | O, _ | _, [] => []
  | S fuel', _ => firstn size l :: chunks fuel' size (skipn size l)
  end.

(** The size of the ufunc buffer. *)
Definition buffer_size : nat := Z.to_nat 8192.

(** [np.add.reduce(..., dtype=float64)] of an integer array: the cast
    goes through the ufunc buffer, 8192 elements at a time, and each
    bufferful is added to the running result. *)
Definition add_reduce_buffered (l : list float) : float :=
  match l with
  | [] => 0
  | _ =>
      fold_left (fun acc chunk => acc + pairwise_sum (length chunk) chunk)
                (chunks (length l) buffer_size l) (-0)
  end.

(** Two-dimensional float64 arrays are lists of rows. *)
Definition array2 : Type := list (list float).

(** [np.sum(G)] over every element of a C-contiguous array. *)
Definition np_sum (G : array2) : float := add_reduce (concat G).

(** [np.tile(X, (1, 2))] *)
Definition np_tile_1_2 (X : list float) : array2 := [X ++ X].

(** [m.T] *)
Definition np_transpose (m : array2) : array2 :=
  map (fun j => map (fun row => nth j row 0) m)
      (seq 0 (length (hd [] m))).

Definition broadcast_row (op : float -> float -> float) (v row : list float)
  : result (list float) :=
  if (length v =? length row)%nat then Ok (zip_with op v row)
  else if (length row =? 1)%nat then Ok (map (fun a => op a (hd 0 row)) v)
  else if (length v =? 1)%nat then Ok (map (op (hd 0 v)) row)
  else Raise (ValueError "operands could not be broadcast together").

Definition broadcast_1d_2d (op : float -> float -> float) (v : list float)
  (m : array2) : result array2 :=
  traverse (broadcast_row op v) m.

(** ** The transform configuration *)

Record HSTransform : Type := {
  forwardtaper : float;
  backwardtaper : float;
  curvature : float
}.

(** The defaults 0.2, 0.1 and 312.5, as the float64 values Python reads
    them to. *)
Definition default_transform : HSTransform :=
  {| forwardtaper := 0x1.999999999999ap-3;
     backwardtaper := 0x1.999999999999ap-4;
     curvature := 312.5 |}.

(** ** [HSTransform._compute_hyperbolic_gaussian] *)

(** The time axis as the array the method receives: float64, or int64
    when it was given as integers. *)
Inductive time_array : Type :=
| TimeFloat (l : list float)
| TimeInt (l : list Z).

(** [time] as an operand of a float64 operation. *)
Definition time_as_float (time : time_array) : list float :=
  match time with
  | TimeFloat l => l
  | TimeInt l => map f64_of_Z l
  end.

(** [time**2], taken in the dtype of the array, as an operand of the
    float64 addition that follows. *)
Definition time_squared (time : time_array) : list float :=
  match time with
  | TimeFloat l => map (fun t => t * t) l
  | TimeInt l => map (fun t => f64_of_Z (wrap64 (t * t))) l
  end.

Definition _compute_hyperbolic_gaussian `{Libm}
  (self : HSTransform) (L n : Z) (time : time_array) : result float :=
  let vectorf := np_arange 0 L in
  let vectorf1 := map (fun f => wrap64 (f * f)) vectorf in
  let lambdaf := forwardtaper self in
  let lambdab := backwardtaper self in
  let lambda_val := curvature self in
  let X :=
    zip_with add
      (map (fun t => (lambdaf + lambdab) * t / (2 * lambdaf * lambdab))
           (time_as_float time))
      (map (fun s =>
              (lambdaf - lambdab) * sqrt (s + lambda_val)
              / (2 * lambdaf * lambdab))
           (time_squared time)) in
  let X := np_transpose (np_tile_1_2 X) in
  prod <- broadcast_1d_2d mul
            (map (fun f1 => f64_of_Z (wrap64 (- f1))) vectorf1)
            (map (map (fun x => x * x)) X) ;;
  d <- py_int_to_float (2 * n ^ 2) ;;
  let vectorf2 := map (map (fun p => p / d)) prod in
  num <- broadcast_1d_2d mul
           (map (fun f => f64_of_Z (wrap64 (2 * Z.abs f))) vectorf)
           (map (map libm_exp) vectorf2) ;;
  let G :=
    map (map (fun g => g / ((lambdaf + lambdab) * sqrt (2 * np_pi)))) num in
  Ok (np_sum G).

(** *** The window weight as the specification writes it *)

(** One entry of the envelope for the warped time [x], the divisor
    [d = 2n²] and the frequency bin [f]:
    2·|f|·exp(−f²·x²/d) / ((λf+λb)·sqrt(2π)). *)
Definition envelope (LM : Libm) (self : HSTransform) (d x : float) (f : Z)
  : float :=
  f64_of_Z (wrap64 (2 * Z.abs f))
  * libm_exp (f64_of_Z (wrap64 (- wrap64 (f * f))) * (x * x) / d)
  / ((forwardtaper self + backwardtaper self) * sqrt (2 * np_pi)).

(** The time-warp vector of line 78, one entry per time sample. *)
Definition warp (self : HSTransform) (time : time_array) : list float :=
  zip_with
    (fun t s =>
       (forwardtaper self + backwardtaper self) * t
       / (2 * forwardtaper self * backwardtaper self)
       + (forwardtaper self - backwardtaper self) * sqrt (s + curvature self)
         / (2 * forwardtaper self * backwardtaper self))
    (time_as_float time) (time_squared time).

(** The envelope array over a single, untiled copy of the warp vector:
    one row per time sample, one column per frequency bin, with the
    divisor [2n²] as a float64. *)
Definition envelope_array `{LM : Libm}
  (self : HSTransform) (L n : Z) (time : time_array) : array2 :=
  map (fun x => map (envelope LM self (f64_of_Z (2 * n ^ 2)) x)
                    (np_arange 0 L))
      (warp self time).

(** The weight of a single copy: the sum of that array. *)
Definition single_copy_weight `{LM : Libm}
  (self : HSTransform) (L n : Z) (time : time_array) : float :=
  np_sum (envelope_array self L n time).


(** ** Python values and NumPy arrays *)

Inductive pyelem : Type :=
| EInt (z : Z)
| EFloat (x : float)
| EBool (b : bool)
| EStr (s : string).

Inductive ndarray : Type :=
| ArrInt (l : list Z)
| ArrUInt (l : list Z)
| ArrFloat (l : list float)
| ArrBool (l : list bool)
| ArrStr (l : list pyelem)
| ArrObject (l : list pyelem).

Inductive pyobj : Type :=
| PyArray (a : ndarray)
| PySeries (a : ndarray)
| PyList (l : list pyelem)
| PyOther (tyname : string).

Definition is_str (e : pyelem) : bool :=
  match e with EStr _ => true | _ => false end.

Definition is_float (e : pyelem) : bool :=
  match e with EFloat _ => true | _ => false end.

Definition is_int64 (e : pyelem) : bool :=
  match e with
  | EInt z => ((- 2 ^ 63 <=? z) && (z <? 2 ^ 63))%Z
  | _ => false
  end.

Definition is_uint64 (e : pyelem) : bool :=
  match e with
  | EInt z => ((2 ^ 63 <=? z) && (z <? 2 ^ 64))%Z
  | _ => false
  end.

Definition is_big_int (e : pyelem) : bool :=
  match e with
  | EInt z => ((z <? - 2 ^ 63) || (2 ^ 64 <=? z))%Z
  | _ => false
  end.

Definition elem_to_float (e : pyelem) : float :=
  match e with
  | EInt z => f64_of_Z z
  | EFloat x => x
  | EBool b => f64_of_Z (bool_to_Z b)
  | EStr _ => nan
  end.

Definition elem_to_int (e : pyelem) : Z :=
  match e with
  | EInt z => z
  | EBool b => bool_to_Z b
  | _ => 0%Z
  end.

Definition elem_to_bool (e : pyelem) : bool :=
  match e with
  | EBool b => b
  | _ => false
  end.

(** [np.array(l)] on a Python list, by promotion of the element dtypes
    as in the exact embedding. *)
Definition np_array_of_list (l : list pyelem) : ndarray :=
  match l with
  | [] => ArrFloat []
  | _ =>
      if existsb is_big_int l then ArrObject l
      else if existsb is_str l then ArrStr l
      else if existsb is_float l || (existsb is_int64 l && existsb is_uint64 l)
           then ArrFloat (map elem_to_float l)
      else if existsb is_uint64 l then ArrUInt (map elem_to_int l)
      else if existsb is_int64 l then ArrInt (map elem_to_int l)
      else ArrBool (map elem_to_bool l)
  end.

Definition np_array (o : pyobj) : ndarray :=
  match o with
  | PyArray a => a
  | PySeries a => a
  | PyList l => np_array_of_list l
  | PyOther _ => ArrObject []
  end.

Definition np_len (a : ndarray) : nat :=
  match a with
  | ArrInt l => length l
  | ArrUInt l => length l
  | ArrFloat l => length l
  | ArrBool l => length l
  | ArrStr l => length l
  | ArrObject l => length l
  end.

(** [np.isnan(a).any()] *)
Definition np_isnan_any (a : ndarray) : result bool :=
  match a with
  | ArrInt _ | ArrUInt _ => Ok false
  | ArrFloat l => Ok (existsb is_nan l)
  | ArrBool _ => Ok false
  | ArrStr _ | ArrObject _ =>
      Raise (TypeError "ufunc 'isnan' not supported for the input types")
  end.

Definition np_issubdtype_number (a : ndarray) : bool :=
  match a with
  | ArrInt _ | ArrUInt _ | ArrFloat _ => true
  | ArrBool _ | ArrStr _ | ArrObject _ => false
  end.

Definition isinstance_valid_types (o : pyobj) : bool :=
  match o with
  | PyArray _ | PySeries _ | PyList _ => true
  | PyOther _ => false
  end.

Definition type_name (o : pyobj) : string :=
  match o with
  | PyArray _ => "numpy.ndarray"
  | PySeries _ => "pandas.core.series.Series"
  | PyList _ => "list"
  | PyOther n => n
  end.

Definition msg_bad_type (o : pyobj) : string :=
  ("input_signal must be one of the following types: "
   ++ "(<class 'numpy.ndarray'>, <class 'pandas.core.series.Series'>, <class 'list'>)"
   ++ ", not <class '" ++ type_name o ++ "'>.")%string.

(** ** [HSTransform._input_validation] *)

Definition _input_validation (input_signal : pyobj) : result unit :=
  if negb (isinstance_valid_types input_signal) then
    Raise (TypeError (msg_bad_type input_signal))
  else
    let input_array := np_array input_signal in
    has_nan <- np_isnan_any input_array ;;
    if (has_nan : bool) then Raise (ValueError msg_null)
    else if negb (np_issubdtype_number input_array) then
           Raise (ValueError msg_non_numeric)
    else Ok tt.

(** ** The output matrix *)

Record cmatrix : Type := {
  ncols : nat;
  rows : list (list C)
}.

Definition nrows (S : cmatrix) : nat := length (rows S).

Definition np_zeros (nr : Z) (nc : nat) : result cmatrix :=
  if (nr <? 0)%Z then Raise (ValueError "negative dimensions are not allowed")
  else Ok {| ncols := nc; rows := repeat (repeat C0 nc) (Z.to_nat nr) |}.

Definition set_row (S : cmatrix) (i : Z) (v : list C) : result cmatrix :=
  let nr := Z.of_nat (nrows S) in
  if ((i <? - nr) || (nr <=? i))%Z then
    Raise (IndexError "index is out of bounds for axis 0")
  else
    let i' := Z.to_nat (if (i <? 0)%Z then (i + nr)%Z else i) in
    if (length v =? ncols S)%nat then
      Ok {| ncols := ncols S; rows := replace_nth i' v (rows S) |}
    else if (length v =? 1)%nat then
      Ok {| ncols := ncols S;
            rows := replace_nth i' (repeat (hd C0 v) (ncols S)) (rows S) |}
    else Raise (ValueError "could not broadcast input array").

(** ** [HSTransform.fit_transform] *)

(** The float64 values the forward transform and the mean work on.
    Validation has excluded the non-numeric arrays. *)
Definition float_values (a : ndarray) : result (list float) :=
  match a with
  | ArrInt l | ArrUInt l => Ok (map f64_of_Z l)
  | ArrFloat l => Ok l
  | _ => Raise (TypeError "array is not numeric")
  end.

(** [np.mean(a)]: the float64 sum over the element count.  An integer
    array is summed through the cast buffer. *)
Definition np_mean (a : ndarray) : float :=
  match a with
  | ArrInt l | ArrUInt l =>
      add_reduce_buffered (map f64_of_Z l) / f64_of_Z (Z.of_nat (length l))
  | ArrFloat l => add_reduce l / f64_of_Z (Z.of_nat (length l))
  | _ => nan
  end.

(** The right-hand side of line 127: the float64 mean times the int64
    mask [1 & [1..N]]. *)
Definition dc_row (a : ndarray) : list float :=
  map (fun b => np_mean a * f64_of_Z b) (dc_mask (Z.of_nat (np_len a))).

Section Transform.

Context `{FL : FourierLib} `{LM : Libm}.

Definition loop_body (self : HSTransform) (N minf fsamplingrate : Z)
  (time_values : time_array) (H : list C) (S : cmatrix) (k : Z)
  : result cmatrix :=
  W_hy <- _compute_hyperbolic_gaussian self N (minf + k) time_values ;;
  row <- scipy_ifft
           (map (Cscale W_hy)
                (py_slice H (minf + k + 1) (minf + k + N + 1))) ;;
  i <- py_floordiv k fsamplingrate ;;
  set_row S i row.

Definition fit_transform (self : HSTransform) (time_values : time_array)
  (input_signal : pyobj) (minf fsamplingrate : Z) : result cmatrix :=
  _ <- _input_validation input_signal ;;
  let input_signal := np_array input_signal in
  signal <- float_values input_signal ;;
  let N := Z.of_nat (np_len input_signal) in
  let maxf := Z.min 900 (N / 2) in
  H <- scipy_fft (map RtoC signal) ;;
  let H := H ++ H in
  nr <- py_floordiv (maxf - minf + 1) fsamplingrate ;;
  S <- np_zeros nr (np_len input_signal) ;;
  S <- set_row S 0 (map RtoC (dc_row input_signal)) ;;
  ks <- py_range fsamplingrate (maxf - minf + 1) fsamplingrate ;;
  for_each (loop_body self N minf fsamplingrate time_values H) ks S.

End Transform.

(** ** Reference implementations of the two interfaces

    Series evaluations of the exponential and of the discrete Fourier
    transform.  They show that the interfaces are inhabited and let the
    scenarios below be run; no general theorem depends on their
    values. *)

Fixpoint exp_terms (terms : nat) (x term acc k : float) : float :=
  match terms with
  | O => acc
  | S t =>
      let term' := term * x / k in
      exp_terms t x term' (acc + term') (k + 1)
  end.

(** [y * 2^k] for an integral [k], one factor at a time. *)
Fixpoint scale_by_two (fuel : nat) (k y : float) : float :=
  match fuel with
  | O => y
  | S f =>
      if 1 <=? k then scale_by_two f (k - 1) (y * 2)
      else if k <=? -1 then scale_by_two f (k + 1) (y / 2)
      else y
  end.

(** exp(x) = 2^k · exp(x − k·ln 2) with [k] the integer nearest to
    [x / ln 2]. *)
Definition reference_exp (x : float) : float :=
  if is_nan x then nan
  else if x =? 0 then 1
  else if x <? -746 then 0
  else if 710 <? x then infinity
  else
    let ln2 := 0x1.62e42fefa39efp-1 in
    let k := (x / ln2 + 0x1.8p+52) - 0x1.8p+52 in
    scale_by_two 1100 k (exp_terms 25 (x - k * ln2) 1 1 1).

Fixpoint trig_terms (terms : nat) (x2 term acc k : float) : float :=
  match terms with
  | O => acc
  | S t =>
      let term' := - term * x2 / (k * (k + 1)) in
      trig_terms t x2 term' (acc + term') (k + 2)
  end.

Definition reference_cos (x : float) : float := trig_terms 30 (x * x) 1 1 1.
Definition reference_sin (x : float) : float := trig_terms 30 (x * x) x x 2.

Definition twiddle (sgn : float) (N k n : nat) : C :=
  let theta :=
    sgn * (2 * np_pi * f64_of_Z (Z.of_nat ((k * n) mod N))
           / f64_of_Z (Z.of_nat N)) in
  (reference_cos theta, reference_sin theta).

Definition dft (sgn : float) (x : list C) : list C :=
  let N := length x in
  map (fun k =>
         Csum (zip_with (fun n xn => Cmul xn (twiddle sgn N k n)) (seq 0 N) x))
      (seq 0 N).

Definition dft_forward (x : list C) : list C := dft (-1) x.

Definition dft_inverse (x : list C) : list C :=
  let N := f64_of_Z (Z.of_nat (length x)) in
  map (fun c => (fst c / N, snd c / N)) (dft 1 x).

Lemma reference_dft_length (sgn : float) (x : list C) :
  length (dft sgn x) = length x.
Proof. unfold dft; rewrite length_map, length_seq; reflexivity. Qed.

Lemma reference_dft_inverse_length (x : list C) :
  length (dft_inverse x) = length x.
Proof. unfold dft_inverse; rewrite length_map; apply reference_dft_length. Qed.

Definition reference_fourier : FourierLib :=
  {| fft := dft_forward;
     ifft := dft_inverse;
     fft_length := reference_dft_length (-1);
     ifft_length := reference_dft_inverse_length |}.

Definition reference_libm : Libm :=
  {| libm_exp := reference_exp;
     exp_zero := eq_refl;
     exp_neg_zero := eq_refl;
     exp_nan := eq_refl |}.

(** Equal tapers one half, default curvature. *)
Definition half_tapers : HSTransform :=
  {| forwardtaper := 0.5; backwardtaper := 0.5; curvature := 312.5 |}.

(* ================================================================== *)
(** ** Properties of the float64 embedding *)

Lemma f64_transpose_single_row (row : list float) :
  np_transpose [row] = map (fun x => [x]) row.
Proof.
  unfold np_transpose; simpl.
  transitivity (map (fun x => [x]) (map (fun j => nth j row 0)
                                        (seq 0 (length row)))).
  - rewrite map_map; reflexivity.
  - rewrite map_nth_seq; reflexivity.
Qed.

Lemma f64_broadcast_row_column (op : float -> float -> float)
  (v : list float) (x : float) :
  broadcast_row op v [x] = Ok (map (fun a => op a x) v).
Proof.
  unfold broadcast_row; simpl length.
  destruct (length v =? 1)%nat eqn:Hlen.
  - apply Nat.eqb_eq in Hlen.
    destruct v as [| a [| b v]]; try discriminate Hlen; reflexivity.
  - reflexivity.
Qed.

Lemma f64_broadcast_against_column (v : list float) (xs : list float) :
  broadcast_1d_2d mul v (map (map (fun x => x * x)) (map (fun x => [x]) xs))
  = Ok (map (fun x => map (fun a => a * (x * x)) v) xs).
Proof.
  unfold broadcast_1d_2d.
  rewrite map_map, traverse_map.
  apply traverse_map_ok; intros x _; simpl.
  apply f64_broadcast_row_column.
Qed.

Lemma f64_broadcast_against_rows {A : Type} (s : A -> float)
  (r : float -> A -> float) (vf : list A) (xs : list float) :
  broadcast_1d_2d mul (map s vf) (map (fun x => map (r x) vf) xs)
  = Ok (map (fun x => map (fun f => s f * r x f) vf) xs).
Proof.
  unfold broadcast_1d_2d.
  rewrite traverse_map.
  apply traverse_map_ok; intros x _.
  unfold broadcast_row; rewrite !length_map, Nat.eqb_refl.
  rewrite zip_with_map_same; reflexivity.
Qed.

Lemma zip_with_map_map {A B A' B' D : Type} (op : A' -> B' -> D)
  (f : A -> A') (g : B -> B') (a : list A) (b : list B) :
  zip_with op (map f a) (map g b) = zip_with (fun x y => op (f x) (g y)) a b.
Proof.
  revert b; induction a as [| x a IH]; intros [| y b]; simpl;
    try reflexivity.
  rewrite IH; reflexivity.
Qed.

(** For a frequency index below 2^31 the divisor [2n²] is an int64 and
    its conversion to float64 does not overflow. *)
Lemma py_int_to_float_divisor (n : Z) :
  (0 < n < 2 ^ 31)%Z ->
  py_int_to_float (2 * n ^ 2) = Ok (f64_of_Z (2 * n ^ 2)).
Proof.
  intros Hn; unfold py_int_to_float.
  assert (Hd : (0 < 2 * n ^ 2 < 2 ^ 63)%Z) by nia.
  assert (Hmax : (2 ^ 63 < 2 ^ 1024 - 2 ^ 970)%Z) by (vm_compute; reflexivity).
  destruct (Z.ltb_spec (Z.abs (2 * n ^ 2)) (2 ^ 1024 - 2 ^ 970)) as [_ | Hge];
    [reflexivity |].
  generalize dependent (2 ^ 1024 - 2 ^ 970)%Z; intros; lia.
Qed.

(** The tile, transpose, broadcast and sum pipeline computes the sum of
    the single-copy envelope array taken twice. *)
Lemma f64_compute_eq `{LM : Libm}
  (self : HSTransform) (L n : Z) (time : time_array) :
  (0 < n < 2 ^ 31)%Z ->
  _compute_hyperbolic_gaussian self L n time
  = Ok (np_sum (envelope_array self L n time
                ++ envelope_array self L n time)).
Proof.
  intros Hn.
  unfold _compute_hyperbolic_gaussian, envelope_array, np_tile_1_2.
  rewrite zip_with_map_map.
  fold (warp self time).
  set (X := warp self time).
  set (vf := np_arange 0 L).
  rewrite (py_int_to_float_divisor n Hn).
  set (d := f64_of_Z (2 * n ^ 2)).
  rewrite f64_transpose_single_row, f64_broadcast_against_column.
  cbn [bind].
  set (r := fun (x : float) (f : Z) =>
              libm_exp (f64_of_Z (wrap64 (- wrap64 (f * f))) * (x * x) / d)).
  replace (map (map libm_exp) _)
    with (map (fun x => map (r x) vf) (X ++ X)).
  2:{ rewrite !map_map; apply map_ext; intros x.
      rewrite !map_map; reflexivity. }
  rewrite f64_broadcast_against_rows.
  cbn [bind].
  do 2 f_equal.
  rewrite <- map_app, !map_map.
  apply map_ext; intros x.
  rewrite map_map; reflexivity.
Qed.

(** ** The window weight in float64 *)




(** C10, as amended: for every signal length [L >= 1], frequency index
    [0 < n < 2^31] and time vector, the array that the
    tile-to-two-copies computation sums is the envelope array of a
    single copy of the time-warp vector stacked twice, so the returned
    weight is the float64 sum over two identical copies, where the
    single-copy weight is the float64 sum over one. *)
Theorem tiled_weight_sums_two_copies `{LM : Libm}
  (self : HSTransform) (L n : Z) (time : time_array) :
  (1 <= L)%Z -> (0 < n < 2 ^ 31)%Z ->
  let G1 := envelope_array self L n time in
  _compute_hyperbolic_gaussian self L n time = Ok (np_sum (G1 ++ G1))
  /\ single_copy_weight self L n time = np_sum G1.
Proof.
  intros _ Hn G1; split; [apply f64_compute_eq; exact Hn | reflexivity].
Qed.

Lemma tiled_weight_sums_two_copies_witness :
  (1 <= 5)%Z /\ (0 < 3 < 2 ^ 31)%Z
  /\ _compute_hyperbolic_gaussian (H := reference_libm) half_tapers 5 3
       (TimeFloat [0])
     = Ok (np_sum (envelope_array (LM := reference_libm) half_tapers 5 3
                     (TimeFloat [0])
                   ++ envelope_array (LM := reference_libm) half_tapers 5 3
                        (TimeFloat [0]))).
Proof.
  split; [lia | split; [lia |]].
  apply (tiled_weight_sums_two_copies (LM := reference_libm) half_tapers 5 3
           (TimeFloat [0])); lia.
Defined.

(** C10, refuted as stated.  With both tapers one half, [L = 5],
    [n = 3] and the time vector [0.0], every exponent is a zero, the
    envelope row is [0, 2, 4, 6, 8] / sqrt(2π), and the float64 sum of
    the row taken twice is one unit in the last place below twice the
    float64 sum of the row. *)
Lemma twice_single_copy_counterexample :
  envelope_array (LM := reference_libm) half_tapers 5 3 (TimeFloat [0])
  = [[0; 0x1.9884533d43651p-1; 0x1.9884533d43651p+0;
      0x1.32633e6df28bdp+1; 0x1.9884533d43651p+1]]
  /\ _compute_hyperbolic_gaussian (H := reference_libm) half_tapers 5 3
       (TimeFloat [0])
     = Ok 0x1.fea5680c943e5p+3
  /\ single_copy_weight (LM := reference_libm) half_tapers 5 3 (TimeFloat [0])
     = 0x1.fea5680c943e6p+2
  /\ 2 * 0x1.fea5680c943e6p+2 = 0x1.fea5680c943e6p+3
  /\ 0x1.fea5680c943e5p+3 <> 0x1.fea5680c943e6p+3.
Proof.
  split; [vm_compute; reflexivity |].
  split; [vm_compute; reflexivity |].
  split; [vm_compute; reflexivity |].
  split; [vm_compute; reflexivity |].
  intros Heq; discriminate Heq.
Qed.

(** ** Row 0 in float64 *)

(** Multiplying by the float64 one leaves every float64 as it is. *)
Lemma f64_mul_one (x : float) : x * 1 = x.
Proof.
  apply Prim2SF_inj; rewrite mul_spec.
  pose proof (Prim2SF_valid x) as Hv.
  change (Prim2SF 1) with (S754_finite false 4503599627370496 (-52)).
  destruct (Prim2SF x) as [s | s | | s m e]; try reflexivity;
    try (destruct s; reflexivity).
  simpl in Hv; unfold SpecFloat.bounded, SpecFloat.canonical_mantissa in Hv.
  apply andb_prop in Hv as [Hc He]; apply Z.eqb_eq in Hc.
  unfold SF64mul, SFmul, SpecFloat.binary_round_aux, SpecFloat.shr_fexp.
  rewrite Pos.mul_comm; cbn [Pos.mul].
  cbn [SpecFloat.Zdigits2 SpecFloat.digits2_pos SpecFloat.shr_record_of_loc].
  set (d := digits2_pos m) in *.
  match goal with
  | |- context [fexp prec emax (Z.pos ?p + ?q)] =>
      replace (Z.pos p + q)%Z with (Z.pos d + e)%Z by lia
  end.
  rewrite Hc; replace (e - (e + -52))%Z with 52%Z by lia.
  cbn [shr iter_pos shr_1 orb shr_m loc_of_shr_record round_nearest_even].
  replace (e + -52 + 52)%Z with e by lia.
  cbn [SpecFloat.Zdigits2]; fold d; rewrite Hc, Z.sub_diag.
  cbn [shr shr_m]; rewrite He.
  destruct s; reflexivity.
Qed.

(** A finite float64 times zero is a zero (of either sign). *)
Lemma f64_mul_zero_finite (x : float) :
  is_finite x = true -> is_zero (x * 0) = true.
Proof.
  unfold is_finite, is_zero, is_nan, is_infinity.
  rewrite !eqb_spec, mul_spec, abs_spec.
  change (Prim2SF 0) with (S754_zero false).
  change (Prim2SF zero) with (S754_zero false).
  change (Prim2SF infinity) with (S754_infinity false).
  destruct (Prim2SF x) as [[] | [] | | [] m e]; simpl; try congruence;
    reflexivity.
Qed.

(** An infinity or a NaN times zero is a NaN. *)
Lemma f64_mul_zero_not_finite (x : float) :
  is_finite x = false -> is_nan (x * 0) = true.
Proof.
  unfold is_finite, is_zero, is_nan, is_infinity.
  rewrite !eqb_spec, mul_spec, abs_spec.
  change (Prim2SF 0) with (S754_zero false).
  change (Prim2SF zero) with (S754_zero false).
  change (Prim2SF infinity) with (S754_infinity false).
  destruct (Prim2SF x) as [[] | [] | | [] m e]; simpl; try congruence.
  all: unfold SFeqb, SFcompare; rewrite Z.compare_refl, Pos.compare_cont_refl;
    simpl; congruence.
Qed.

Lemma f64_set_row_keeps_head (S S' : cmatrix) (i : Z) (v : list C) :
  (1 <= i)%Z ->
  set_row S i v = Ok S' ->
  ncols S' = ncols S /\ nrows S' = nrows S
  /\ nth_error (rows S') 0 = nth_error (rows S) 0.
Proof.
  intros Hi; unfold set_row.
  destruct ((i <? - Z.of_nat (nrows S)) || (Z.of_nat (nrows S) <=? i))%Z;
    [discriminate |].
  destruct (Z.ltb_spec i 0) as [? | _]; [lia |].
  destruct (length v =? ncols S)%nat;
    [| destruct (length v =? 1)%nat; [| discriminate]];
    intros Hok; injection Hok as <-; unfold nrows; simpl;
    rewrite replace_nth_length;
    (split; [reflexivity | split; [reflexivity |]]);
    apply replace_nth_head; lia.
Qed.

Lemma f64_set_row_zero (S S' : cmatrix) (v : list C) :
  length v = ncols S ->
  set_row S 0 v = Ok S' ->
  ncols S' = ncols S /\ nth_error (rows S') 0 = Some v.
Proof.
  intros Hlen; unfold set_row.
  destruct (Z.leb_spec (Z.of_nat (nrows S)) 0) as [? | Hrows];
    [rewrite orb_true_r; discriminate |].
  destruct (0 <? - Z.of_nat (nrows S))%Z; [discriminate |].
  simpl; rewrite Hlen, Nat.eqb_refl.
  intros Hok; injection Hok as <-; simpl.
  split; [reflexivity |].
  unfold nrows in Hrows; destruct (rows S); simpl in *; [lia | reflexivity].
Qed.

Lemma f64_dc_row_length (a : ndarray) : length (dc_row a) = np_len a.
Proof.
  unfold dc_row; rewrite length_map, dc_mask_pattern, length_map, length_seq.
  reflexivity.
Qed.

Section Row0.

Context `{FL : FourierLib} `{LM : Libm}.

Variables (self : HSTransform) (time_values : time_array).

Lemma f64_loop_body_writes (N minf fs : Z) (H : list C) (S S' : cmatrix)
  (k : Z) :
  fs <> 0%Z ->
  loop_body self N minf fs time_values H S k = Ok S' ->
  exists row, set_row S (k / fs) row = Ok S'.
Proof.
  intros Hfs Hrun; unfold loop_body in Hrun.
  apply bind_ok in Hrun as (W & _ & Hrun).
  apply bind_ok in Hrun as (row & _ & Hrun).
  apply bind_ok in Hrun as (i & Hi & Hrun).
  unfold py_floordiv in Hi.
  destruct (Z.eqb_spec fs 0) as [? | _]; [contradiction |].
  injection Hi as <-.
  exists row; exact Hrun.
Qed.

Lemma f64_loop_keeps_head (N minf fs : Z) (H : list C) (ks : list Z) :
  fs <> 0%Z ->
  (forall k, In k ks -> (1 <= k / fs)%Z) ->
  forall S S',
    for_each (loop_body self N minf fs time_values H) ks S = Ok S' ->
    ncols S' = ncols S /\ nrows S' = nrows S
    /\ nth_error (rows S') 0 = nth_error (rows S) 0.
Proof.
  intros Hfs; induction ks as [| k ks IH]; intros Hks S S' Hrun; simpl in Hrun.
  - injection Hrun as <-; repeat split; reflexivity.
  - apply bind_ok in Hrun as (S1 & Hstep & Hrest).
    apply (f64_loop_body_writes _ _ _ _ _ _ _ Hfs) in Hstep as (row & Hset).
    apply f64_set_row_keeps_head in Hset as (Hc & Hr & Hh);
      [| apply Hks; left; reflexivity].
    apply IH in Hrest as (Hc' & Hr' & Hh');
      [| intros k' Hk'; apply Hks; right; exact Hk'].
    repeat split; congruence.
Qed.

(** Whatever [minf] and the stride, a returned matrix has the signal's
    width, and its row 0 is the right-hand side of line 127. *)
Lemma f64_fit_transform_dc_row (sig : pyobj) (minf fs : Z) (S : cmatrix) :
  fit_transform self time_values sig minf fs = Ok S ->
  ncols S = np_len (np_array sig)
  /\ nth_error (rows S) 0 = Some (map RtoC (dc_row (np_array sig))).
Proof.
  intros Hrun; unfold fit_transform in Hrun.
  apply bind_ok in Hrun as ([] & Hvalid & Hrun).
  apply bind_ok in Hrun as (xs & Hxs & Hrun).
  apply bind_ok in Hrun as (H & Hfft & Hrun).
  apply bind_ok in Hrun as (nr & _ & Hrun).
  apply bind_ok in Hrun as (S0 & Hzeros & Hrun).
  apply bind_ok in Hrun as (S1 & Hset & Hrun).
  apply bind_ok in Hrun as (ks & Hks & Hrun).
  assert (Hcols : ncols S0 = np_len (np_array sig)).
  { unfold np_zeros in Hzeros; destruct (nr <? 0)%Z; [discriminate |].
    injection Hzeros as <-; reflexivity. }
  apply f64_set_row_zero in Hset as (Hc1 & Hrow);
    [| rewrite length_map, f64_dc_row_length; congruence].
  apply py_range_multiples in Hks as (Hfs & Hmult).
  apply (f64_loop_keeps_head _ _ _ _ _ Hfs Hmult) in Hrun as (Hc & _ & Hh).
  split; congruence.
Qed.

End Row0.

(** C9, as amended: for every [N >= 2] the DC-row mask [1 & [1..N]] is
    the alternating vector [1, 0, 1, 0, ...] (1 at odd sample numbers, 0
    at even ones) and is not the all-ones vector; row 0 of every
    returned matrix holds the float64 mean of the signal in the even
    0-based columns and the float64 product of that mean with 0 in the
    odd ones, which is a zero when the mean is finite and NaN when the
    mean is an infinity or NaN. *)
Theorem dc_row_alternates (n : nat) :
  (2 <= n)%nat ->
  dc_mask (Z.of_nat n) = map (fun j => if Nat.even j then 1 else 0)%Z (seq 0 n)
  /\ dc_mask (Z.of_nat n) <> repeat 1%Z n
  /\ forall (FL : FourierLib) (LM : Libm) (self : HSTransform)
            (time_values : time_array) (sig : pyobj) (minf fs : Z)
            (S : cmatrix),
       np_len (np_array sig) = n ->
       fit_transform self time_values sig minf fs = Ok S ->
       let mean := np_mean (np_array sig) in
       nth_error (rows S) 0
       = Some (map (fun j => if Nat.even j then (mean, 0) else (mean * 0, 0))
                   (seq 0 n))
       /\ (is_finite mean = true -> is_zero (mean * 0) = true)
       /\ (is_finite mean = false -> is_nan (mean * 0) = true).
Proof.
  intros Hn.
  split; [apply dc_mask_pattern |].
  split.
  - rewrite dc_mask_pattern.
    destruct n as [| [| n]]; [lia | lia |].
    simpl; discriminate.
  - intros FL LM self time_values sig minf fs S Hlen Hrun mean.
    split; [| split;
              [apply f64_mul_zero_finite | apply f64_mul_zero_not_finite]].
    destruct (f64_fit_transform_dc_row _ _ _ _ _ _ Hrun) as (_ & Hrow).
    rewrite Hrow; unfold dc_row; rewrite Hlen, dc_mask_pattern, !map_map.
    f_equal; apply map_ext; intros j; unfold RtoC; fold mean.
    destruct (Nat.even j); [| reflexivity].
    change (f64_of_Z 1) with 1; rewrite f64_mul_one; reflexivity.
Qed.

Lemma dc_row_alternates_witness :
  (2 <= 2)%nat
  /\ np_len (np_array (PyList [EFloat 3; EFloat 1])) = 2%nat
  /\ exists S,
       fit_transform (FL := reference_fourier) (LM := reference_libm)
         default_transform (TimeFloat [0; 1])
         (PyList [EFloat 3; EFloat 1]) 0 1 = Ok S
       /\ nth_error (rows S) 0 = Some [(2, 0); (0, 0)].
Proof.
  split; [lia |].
  split; [reflexivity |].
  eexists; split; [vm_compute; reflexivity |].
  destruct (dc_row_alternates 2 ltac:(lia)) as (_ & _ & Hrow).
  destruct (Hrow reference_fourier reference_libm default_transform
              (TimeFloat [0; 1]) (PyList [EFloat 3; EFloat 1]) 0%Z 1%Z _
              eq_refl ltac:(vm_compute; reflexivity)) as (Hrow0 & _).
  rewrite Hrow0; vm_compute; reflexivity.
Defined.

(** C9, refuted as stated.  The signal [inf, 1.0] passes validation
    (an infinity is not a NaN), its float64 mean is an infinity, and the
    matrix returned for [minf = 0] and stride 1 holds NaN, not 0, in
    column 1 of row 0. *)
Lemma zero_in_odd_columns_counterexample :
  _input_validation (PyList [EFloat infinity; EFloat 1]) = Ok tt
  /\ np_mean (np_array (PyList [EFloat infinity; EFloat 1])) = infinity
  /\ exists S,
       fit_transform (FL := reference_fourier) (LM := reference_libm)
         default_transform (TimeFloat [0; 1])
         (PyList [EFloat infinity; EFloat 1]) 0 1 = Ok S
       /\ nth_error (rows S) 0 = Some [(infinity, 0); (nan, 0)].
Proof.
  split; [vm_compute; reflexivity |].
  split; [vm_compute; reflexivity |].
  eexists; split; vm_compute; reflexivity.
Qed.

End F64.
